(** * The request-execution core of go-omniboost-http-client

    A shallow embedding of [client.go] and [error.go] (package [client]).

    Conventions of the embedding.
    - Go's [error] interface is the inductive [error]; a nil error is [None].
    - The caller's error structs ([ErrorStructs() []error]) are references
      ([Slot]) into the caller's memory ([Heap]); their [Error()] method
      reads that memory.
    - The libraries the client calls (net/url, path, text/template, net/http,
      json-iterator, reflect, fmt) are the fields of the record [Lib].
    - [Do] threads a [State]: the client itself (its lazily built codec is
      cached in it), the caller's memory, and the trace of what the call did
      to the outside world (preflight calls, sends, sleeps).
    - [log.Fatal] ends the process: a call then yields [Exited 1] instead of a
      return value.
    - The tracing span, the debug dumps and the cookie jar of the
      [http.Client] are left out: [Do] is followed in what it returns, in
      what it asks of the transport and the preflight function, in its
      sleeps, and in what it writes to the caller's memory and to the codec
      cache.
    - The fields of a request value are its exported ones: reflect panics
      when asked for the value of a tagged field that is not exported, a
      case the model does not follow. *)

From stdpp Require Import gmap strings list.
From Stdlib Require Import ZArith Lia.

Set Warnings "-register-all".

Local Open Scope string_scope.
Local Open Scope list_scope.
Local Open Scope Z_scope.

(** ** Values shared by every layer *)

Definition bytes := list Byte.byte.

(** [strings.Join(elems, sep)] *)
Fixpoint strings_Join (elems : list string) (sep : string) : string :=
  match elems with
  | [] => ""
  | x :: rest =>
      match rest with
      | [] => x
      | _ :: _ => x +:+ sep +:+ strings_Join rest sep
      end
  end.

(** [strings.Split(s, sep)] for a one-character separator: never empty. *)
Fixpoint strings_Split (s : string) (sep : Ascii.ascii) : list string :=
  match s with
  | EmptyString => [""]
  | String ch rest =>
      let r := strings_Split rest sep in
      if Ascii.eqb ch sep then "" :: r
      else match r with
           | h :: t => String ch h :: t
           | [] => [String ch ""]
           end
  end.

(** The separator of the parts of a tag value. *)
Definition comma : Ascii.ascii := Ascii.ascii_of_nat 44.

(** [slices.Contains(parts, x)] *)
Definition slices_Contains (parts : list string) (x : string) : bool :=
  existsb (String.eqb x) parts.

(** [*http.Response]: the status line, the code, and what reading the body
    to its end gives ([io.ReadAll]). *)
Record Response := {
  Status : string;
  StatusCode : Z;
  RespBody : (string + bytes)%type   (* inl: the reader's error text *)
}.

(** [jsoniter.Config] *)
Record Config := {
  EscapeHTML : bool;
  SortMapKeys : bool;
  ValidateJsonRawMessage : bool;
  DisallowUnknownFields : bool
}.

(** [jsoniter.ConfigDefault], the codec behind the package-level
    [jsoniter.NewEncoder]. *)
Definition ConfigDefault : Config :=
  {| EscapeHTML := true; SortMapKeys := false;
     ValidateJsonRawMessage := false; DisallowUnknownFields := false |}.

(** What a call leaves behind: a value, or the end of the process. *)
Inductive outcome (A : Type) : Type :=
  | Returned (a : A)
  | Exited (code : Z)     (* os.Exit, through log.Fatal *)
  | OutOfFuel.            (* the recursion bound of the model was hit *)
Arguments Returned {A} a.
Arguments Exited {A} code.
Arguments OutOfFuel {A}.

(** ** error.go *)

Record ErrorResponseOf (E : Type) : Type := mkErrorResponse {
  message : string;
  response : option Response;
  Parent : option E
}.
Arguments mkErrorResponse {E} message response Parent.
Arguments message {E} e.
Arguments response {E} e.
Arguments Parent {E} e.

Section Errors.
Context {Slot Heap : Type}.

Inductive error : Type :=
  | errorString (text : string)                 (* errors.New *)
  | io_EOF                                      (* io.EOF *)
  | wrapError (prefix : string) (err : error)   (* fmt.Errorf(prefix+"%w", err) *)
  | joinError (errs : list error)               (* errors.Join, non-nil *)
  | slotError (s : Slot)                        (* a caller's error struct *)
  | errResponse (e : ErrorResponseOf error).    (* ErrorResponse *)

Definition ErrorResponse : Type := ErrorResponseOf error.

(** The [Error()] method of a caller's error struct, read from memory. *)
Variable slot_Error : Heap -> Slot -> string.

(** [func (e ErrorResponse) Error() string], over the dynamic dispatch
    [Error] of the parent. *)
Definition ErrorResponse_Error (Error : error -> string) (e : ErrorResponse)
  : string :=
  match Parent e with
  | None => message e
  | Some p => strings_Join [message e; Error p] ": "
  end.

(** [err.Error()] for every error the client can hold. *)
Fixpoint Error (h : Heap) (err : error) : string :=
  match err with
  | errorString text => text
  | io_EOF => "EOF"
  | wrapError prefix inner => prefix +:+ Error h inner
  | joinError errs => strings_Join (List.map (Error h) errs) (String (Ascii.ascii_of_nat 10) "")
  | slotError s => slot_Error h s
  | errResponse e => ErrorResponse_Error (Error h) e
  end.

(** [func (e ErrorResponse) Unwrap() error] *)
Definition Unwrap (e : ErrorResponse) : option error := Parent e.

(** [func (e ErrorResponse) Response() *http.Response] *)
Definition ResponseOf (e : ErrorResponse) : option Response := response e.

(** [NewErrorResponse(message, response, parent)] *)
Definition NewErrorResponse (msg : string) (resp : option Response)
    (parent : option error) : ErrorResponse :=
  {| message := msg; response := resp; Parent := parent |}.

(** [errors.Join(errs...)]: nil when there is nothing to join. *)
Definition errors_Join (errs : list error) : option error :=
  match errs with
  | [] => None
  | _ :: _ => Some (joinError errs)
  end.

(** [errors.Is(err, io.EOF)]: the unwrap tree of [err] holds [io.EOF]. *)
Fixpoint errors_Is_EOF (err : error) : bool :=
  match err with
  | errorString _ => false
  | io_EOF => true
  | wrapError _ inner => errors_Is_EOF inner
  | joinError errs => existsb errors_Is_EOF errs
  | slotError _ => false
  | errResponse e =>
      match Parent e with
      | None => false
      | Some p => errors_Is_EOF p
      end
  end.

(** [errors.Is(err, target)] for a caller's error struct [target]: the
    unwrap tree of [err] holds that very struct. *)
Fixpoint reaches (eqb : Slot -> Slot -> bool) (target : Slot) (err : error)
  : bool :=
  match err with
  | errorString _ | io_EOF => false
  | wrapError _ inner => reaches eqb target inner
  | joinError errs => existsb (reaches eqb target) errs
  | slotError s => eqb s target
  | errResponse e =>
      match Parent e with
      | None => false
      | Some p => reaches eqb target p
      end
  end.
End Errors.

Arguments error : clear implicits.
Arguments ErrorResponse : clear implicits.

(** ** reflect: the fields of a request value *)

(** A [reflect.Value] as [getTaggedFields] meets it: a nil pointer, a pointer
    with what it points to, or a value that is no pointer. *)
Inductive Value (Any : Type) : Type :=
  | Nil
  | Ptr (elem : Value Any)
  | Val (v : Any).
Arguments Nil {Any}.
Arguments Ptr {Any} elem.
Arguments Val {Any} v.

(** [reflect.StructField.Tag] with the value of the field: the tag is the
    list of its [key:"value"] pairs. *)
Record StructField (Any : Type) : Type := {
  Tag : list (string * string);
  FieldValue : Value Any
}.
Arguments Tag {Any} s.
Arguments FieldValue {Any} s.

(** [StructTag.Lookup(key)]: the first pair with that key. *)
Fixpoint Tag_Lookup (key : string) (tag : list (string * string))
  : option string :=
  match tag with
  | [] => None
  | (k, v) :: rest => if String.eqb k key then Some v else Tag_Lookup key rest
  end.

(** [v.Kind() == reflect.Pointer] *)
Definition Kind_Pointer {Any} (v : Value Any) : bool :=
  match v with
  | Nil | Ptr _ => true
  | Val _ => false
  end.

(** [v.IsNil()] *)
Definition IsNil {Any} (v : Value Any) : bool :=
  match v with
  | Nil => true
  | _ => false
  end.

(** [v.Elem()] of a pointer that is not nil. *)
Definition Elem {Any} (v : Value Any) : Value Any :=
  match v with
  | Ptr elem => elem
  | _ => v
  end.

(** ** net/url, net/http *)

Record URL := {
  Scheme : string;
  Host : string;
  Path : string;
  RawQuery : string
}.

(** [url.Values] and [Values.Add] *)
Definition Values_Add (k v : string) (q : gmap string (list string))
  : gmap string (list string) :=
  <[k := default [] (q !! k) ++ [v]]> q.

(** The body handed to [http.NewRequestWithContext]. *)
Inductive Reader (Any : Type) : Type :=
  | passThrough (r : Any)          (* the caller's io.Reader itself *)
  | bytes_NewReader (b : bytes)    (* bytes.NewReader(b) *)
  | bytes_Buffer (b : bytes).      (* the buffer the encoder wrote to *)
Arguments passThrough {Any} r.
Arguments bytes_NewReader {Any} b.
Arguments bytes_Buffer {Any} b.

(** [*http.Request] *)
Record HttpRequest (Any : Type) : Type := {
  ReqMethod : string;
  ReqURL : string;
  Header : list (string * string);
  ReqBody : option (Reader Any)
}.
Arguments ReqMethod {Any} h.
Arguments ReqURL {Any} h.
Arguments Header {Any} h.
Arguments ReqBody {Any} h.

(** [req.Header.Add(key, value)] *)
Definition Header_Add {Any} (key value : string) (req : HttpRequest Any)
  : HttpRequest Any :=
  {| ReqMethod := ReqMethod req; ReqURL := ReqURL req;
     Header := Header req ++ [(key, value)]; ReqBody := ReqBody req |}.

(** [req.Header.Set(key, value)] *)
Definition Header_Set {Any} (key value : string) (req : HttpRequest Any)
  : HttpRequest Any :=
  {| ReqMethod := ReqMethod req; ReqURL := ReqURL req;
     Header := List.filter (fun kv => negb (String.eqb (fst kv) key)) (Header req)
               ++ [(key, value)];
     ReqBody := ReqBody req |}.

(** ** The request descriptor *)

(** What [Body()] returns, by the case of the type switch it takes. *)
Inductive BodyValue (Any : Type) : Type :=
  | bodyReader (r : Any)       (* case io.Reader *)
  | bodyBytes (b : bytes)      (* case []byte *)
  | bodyString (s : string)    (* case string *)
  | bodyOther (v : Any).       (* default *)
Arguments bodyReader {Any} r.
Arguments bodyBytes {Any} b.
Arguments bodyString {Any} s.
Arguments bodyOther {Any} v.

(** A value of interface [Request] with the optional interfaces it
    implements ([None]: the type assertion fails). [fields] is what
    [reflect.ValueOf] finds after following pointers: [None] unless a struct. *)
Record Request (Any Slot : Type) : Type := {
  Method : string;
  PathTemplate : string;
  fields : option (list (StructField Any));
  Body : option (BodyValue Any);          (* RequestWithBody *)
  ErrorStructs : option (list Slot);      (* RequestWithParsableErrors *)
  SkipAuth : option bool                  (* RequestWithAuthPreference *)
}.
Arguments Method {Any Slot} r.
Arguments PathTemplate {Any Slot} r.
Arguments fields {Any Slot} r.
Arguments Body {Any Slot} r.
Arguments ErrorStructs {Any Slot} r.
Arguments SkipAuth {Any Slot} r.

(** What [jsoniter.Unmarshal] is asked to decode into. The success path of
    [Do] passes the destination and, for every declared error struct, the
    address of the loop variable that holds it; the error path passes the
    slice of error structs itself, as a single value. *)
Inductive target (Slot Dest : Type) : Type :=
  | toResponse (d : Dest)            (* the caller's [response] *)
  | toErrorPtr (s : Slot)            (* [&e], [e] the loop's copy of a slot *)
  | toErrorSlice (ss : list Slot).   (* the slice [errorStructs], one value *)
Arguments toResponse {Slot Dest} d.
Arguments toErrorPtr {Slot Dest} s.
Arguments toErrorSlice {Slot Dest} ss.

(** ** The libraries *)

Record Lib (Any Slot Dest Heap : Type) : Type := {
  slot_Error : Heap -> Slot -> string;
  url_Parse : string -> error Slot + URL;
  URL_Query : string -> gmap string (list string);
  Values_Encode : gmap string (list string) -> string;
  path_Join : string -> string -> string;
  URL_String : URL -> string;
  template_Parse : string -> option (error Slot);
  template_Execute : string -> gmap string (Value Any) -> error Slot + string;
  http_NewRequest_check : string -> string -> option (error Slot);
  fmt_Sprint : Value Any -> string;
  reflect_IsZero : Any -> bool;
  isZeroer_IsZero : Value Any -> option bool;
  jsoniter_Encode : Config -> Any -> error Slot + bytes;
  jsoniter_Unmarshal :
    Config -> bytes -> target Slot Dest -> Heap -> Heap * option (error Slot);
  basicAuth : string -> string -> string
}.
Arguments slot_Error {Any Slot Dest Heap} l.
Arguments url_Parse {Any Slot Dest Heap} l.
Arguments URL_Query {Any Slot Dest Heap} l.
Arguments Values_Encode {Any Slot Dest Heap} l.
Arguments path_Join {Any Slot Dest Heap} l.
Arguments URL_String {Any Slot Dest Heap} l.
Arguments template_Parse {Any Slot Dest Heap} l.
Arguments template_Execute {Any Slot Dest Heap} l.
Arguments http_NewRequest_check {Any Slot Dest Heap} l.
Arguments fmt_Sprint {Any Slot Dest Heap} l.
Arguments reflect_IsZero {Any Slot Dest Heap} l.
Arguments isZeroer_IsZero {Any Slot Dest Heap} l.
Arguments jsoniter_Encode {Any Slot Dest Heap} l.
Arguments jsoniter_Unmarshal {Any Slot Dest Heap} l.
Arguments basicAuth {Any Slot Dest Heap} l.

(** ** client.go *)

Definition mediaType_const : string := "application/json".
Definition libraryVersion : string := "0.0.1".
Definition userAgent_const : string := "omniboost/" +:+ libraryVersion.
Definition defaultCharset : string := "utf-8".

Definition authTypeNone : Z := 0.
Definition authTypeBasic : Z := 1.
Definition authTypeApiKey : Z := 2.
Definition authTypeOAuth2 : Z := 3.
Definition authTypePreflight : Z := 4.

(** What a call does to the outside world, in order. *)
Inductive Event (Any : Type) : Type :=
  | EvPreflight (req : HttpRequest Any)   (* c.preflightAuthFunc(req, c) *)
  | EvSend (req : HttpRequest Any)        (* c.httpClient.Do(req) *)
  | EvSleep (ms : Z).                     (* time.Sleep *)
Arguments EvPreflight {Any} req.
Arguments EvSend {Any} req.
Arguments EvSleep {Any} ms.

Definition isSend {Any} (ev : Event Any) : bool :=
  match ev with
  | EvSend _ => true
  | _ => false
  end.

Definition isSleep {Any} (ev : Event Any) : bool :=
  match ev with
  | EvSleep _ => true
  | _ => false
  end.

Definition isPreflight {Any} (ev : Event Any) : bool :=
  match ev with
  | EvPreflight _ => true
  | _ => false
  end.

(** How many requests the transport has been given. *)
Definition sendCount {Any} (tr : list (Event Any)) : nat :=
  length (List.filter isSend tr).

Section Client.
Context {Any Slot Dest Heap : Type}.

(** The struct [client]. [httpClient] is the transport: what
    [c.httpClient.Do(req)] answers, given how many requests it was given
    before. [preflightAuthFunc] is the caller's signing function. The token
    source of OAuth2 lives inside the transport. *)
Record client : Type := {
  httpClient : nat -> HttpRequest Any -> error Slot + Response;
  debug : bool;
  userAgent : string;
  mediaType : string;
  charset : string;
  baseURL : option URL;
  disallowUnknownFields : bool;
  useCookies : bool;
  authType : Z;
  userName : string;
  password : string;
  keyHeader : string;
  keyValue : string;
  maxRetries : Z;
  jsoniterInstance : option Config;
  preflightAuthFunc :
    option (HttpRequest Any -> error Slot + HttpRequest Any)
}.

(** [WithMaxRetries(maxRetries)] *)
Definition WithMaxRetries (n : Z) (c : client) : client :=
  {| httpClient := httpClient c; debug := debug c; userAgent := userAgent c;
     mediaType := mediaType c; charset := charset c; baseURL := baseURL c;
     disallowUnknownFields := disallowUnknownFields c;
     useCookies := useCookies c; authType := authType c;
     userName := userName c; password := password c;
     keyHeader := keyHeader c; keyValue := keyValue c;
     maxRetries := n;
     jsoniterInstance := jsoniterInstance c;
     preflightAuthFunc := preflightAuthFunc c |}.

(** [WithDisallowUnknownFields(b)]: also drops the cached codec. *)
Definition WithDisallowUnknownFields (b : bool) (c : client) : client :=
  {| httpClient := httpClient c; debug := debug c; userAgent := userAgent c;
     mediaType := mediaType c; charset := charset c; baseURL := baseURL c;
     disallowUnknownFields := b;
     useCookies := useCookies c; authType := authType c;
     userName := userName c; password := password c;
     keyHeader := keyHeader c; keyValue := keyValue c;
     maxRetries := maxRetries c;
     jsoniterInstance := None;
     preflightAuthFunc := preflightAuthFunc c |}.

(** The assignment [c.jsoniterInstance = api]. *)
Definition set_jsoniterInstance (api : Config) (c : client) : client :=
  {| httpClient := httpClient c; debug := debug c; userAgent := userAgent c;
     mediaType := mediaType c; charset := charset c; baseURL := baseURL c;
     disallowUnknownFields := disallowUnknownFields c;
     useCookies := useCookies c; authType := authType c;
     userName := userName c; password := password c;
     keyHeader := keyHeader c; keyValue := keyValue c;
     maxRetries := maxRetries c;
     jsoniterInstance := Some api;
     preflightAuthFunc := preflightAuthFunc c |}.

(** [func (c *client) GetJsoniter() jsoniter.API]: the codec and the client
    that now caches it. *)
Definition GetJsoniter (c : client) : Config * client :=
  match jsoniterInstance c with
  | Some api => (api, c)
  | None =>
      let api := {| EscapeHTML := true; SortMapKeys := true;
                    ValidateJsonRawMessage := true;
                    DisallowUnknownFields := disallowUnknownFields c |} in
      (api, set_jsoniterInstance api c)
  end.

(** The state a call runs in. *)
Record State : Type := {
  this : client;
  heap : Heap;
  trace : list (Event Any)
}.

Definition set_trace (tr : list (Event Any)) (st : State) : State :=
  {| this := this st; heap := heap st; trace := tr |}.

Variable lib : Lib Any Slot Dest Heap.

(** [e.Error()] *)
Definition Error_ (h : Heap) (err : error Slot) : string :=
  Error (slot_Error lib) h err.

(** *** getTaggedFields *)

(** [field.IsZero()] *)
Definition IsZero (v : Value Any) : bool :=
  match v with
  | Nil => true
  | Ptr _ => false
  | Val a => reflect_IsZero lib a
  end.

(** One turn of the loop over the struct's fields. *)
Definition visitField (tag : string) (fields : gmap string (Value Any))
    (sf : StructField Any) : gmap string (Value Any) :=
  let field := FieldValue sf in
  match Tag_Lookup tag (Tag sf) with
  | None => fields
  | Some tagValue =>
      let parts := strings_Split tagValue comma in
      let tagValue := hd "" parts in
      if Kind_Pointer field && IsNil field then fields
      else
        let field := if Kind_Pointer field then Elem field else field in
        let raw := field in
        if slices_Contains parts "omitempty" then
          if IsZero field then fields
          else
            match isZeroer_IsZero lib raw with
            | Some true => fields
            | _ => <[tagValue := raw]> fields
            end
        else <[tagValue := raw]> fields
  end.

Definition getTaggedFields (elem : Request Any Slot) (tag : string)
  : gmap string (Value Any) :=
  match fields elem with
  | None => ∅
  | Some fs => fold_left (visitField tag) fs ∅
  end.

(** *** getRequestBody *)

Definition getRequestBody (r : Request Any Slot)
  : error Slot + option (Reader Any) :=
  match Body r with
  | None => inr None
  | Some (bodyReader b) => inr (Some (passThrough b))
  | Some (bodyBytes b) => inr (Some (bytes_NewReader b))
  | Some (bodyString b) =>
      inr (Some (bytes_NewReader (String.list_byte_of_string b)))
  | Some (bodyOther v) =>
      match jsoniter_Encode lib ConfigDefault v with
      | inl err => inl (wrapError "failed to encode request body: " err)
      | inr buf => inr (Some (bytes_Buffer buf))
      end
  end.

(** *** getHttpRequest *)

(** [http.NewRequestWithContext(ctx, method, url, body)]: an empty method
    stands for GET; the library then checks the method and the URL. *)
Definition http_NewRequest (method url : string) (body : option (Reader Any))
  : error Slot + HttpRequest Any :=
  let method := if String.eqb method "" then "GET" else method in
  match http_NewRequest_check lib method url with
  | Some err => inl err
  | None => inr {| ReqMethod := method; ReqURL := url; Header := [];
                   ReqBody := body |}
  end.

Definition set_Path (p : string) (u : URL) : URL :=
  {| Scheme := Scheme u; Host := Host u; Path := p; RawQuery := RawQuery u |}.

Definition set_RawQuery (q : string) (u : URL) : URL :=
  {| Scheme := Scheme u; Host := Host u; Path := Path u; RawQuery := q |}.

Definition getHttpRequest (request : Request Any Slot) (baseUrl : URL)
  : outcome (error Slot + HttpRequest Any) :=
  let pathParams := getTaggedFields request "path" in
  let queryParams := getTaggedFields request "query" in
  match url_Parse lib (PathTemplate request) with
  | inl err => Returned (inl (wrapError "invalid path template: " err))
  | inr parsed =>
      let requestUrl := baseUrl in
      let q := URL_Query lib (RawQuery requestUrl) in
      let q := map_fold
                 (fun k vv q => fold_left (fun q v => Values_Add k v q) vv q)
                 q (URL_Query lib (RawQuery parsed)) in
      let q := map_fold (fun k v q => Values_Add k (fmt_Sprint lib v) q)
                 q queryParams in
      let requestUrl := set_RawQuery (Values_Encode lib q) requestUrl in
      let requestUrl :=
        set_Path (path_Join lib (Path requestUrl) (Path parsed)) requestUrl in
      let rendered : outcome (error Slot + URL) :=
        if (0 <? size pathParams)%nat then
          match template_Parse lib (Path requestUrl) with
          | Some err =>
              Returned (inl (wrapError "failed to parse path template: " err))
          | None =>
              match template_Execute lib (Path requestUrl) pathParams with
              | inl err => Exited 1                       (* log.Fatal(err) *)
              | inr buf => Returned (inr (set_Path buf requestUrl))
              end
          end
        else Returned (inr requestUrl) in
      match rendered with
      | Returned (inr requestUrl) =>
          match getRequestBody request with
          | inl err => Returned (inl err)
          | inr body =>
              match http_NewRequest (Method request)
                      (URL_String lib requestUrl) body with
              | inl err =>
                  Returned
                    (inl (wrapError "failed to create new http request: " err))
              | inr req => Returned (inr req)
              end
          end
      | Returned (inl err) => Returned (inl err)
      | Exited code => Exited code
      | OutOfFuel => OutOfFuel
      end
  end.

(** *** Unmarshal *)

(** The loop of [Unmarshal] over the targets: every target is decoded from
    the same bytes; an error that is not [io.EOF] is kept. *)
Fixpoint decodeEach (b : bytes) (vv : list (target Slot Dest)) (st : State)
    (errs : list (error Slot)) : list (error Slot) * State :=
  match vv with
  | [] => (errs, st)
  | v :: rest =>
      let '(api, c) := GetJsoniter (this st) in
      let '(h, err) := jsoniter_Unmarshal lib api b v (heap st) in
      let errs :=
        match err with
        | Some e => if errors_Is_EOF e then errs else errs ++ [e]
        | None => errs
        end in
      decodeEach b rest {| this := c; heap := h; trace := trace st |} errs
  end.

(** [func (c *client) Unmarshal(r io.Reader, vv ...interface{}) error] *)
Definition Unmarshal (r : string + bytes) (vv : list (target Slot Dest))
    (st : State) : option (error Slot) * State :=
  if (length vv =? 0)%nat then (None, st)
  else
    match r with
    | inl err => (Some (errorString err), st)
    | inr b =>
        let '(errs, st) := decodeEach b vv st [] in
        if (length errs =? length vv)%nat then
          (* Everything errored *)
          let msgs := List.map (Error_ (heap st)) errs in
          (Some (errorString (strings_Join msgs ", ")), st)
        else (None, st)
    end.

(** [checkForErrorResponse(r)] *)
Definition checkForErrorResponse (r : Response)
  : option (ErrorResponse Slot) :=
  if (200 <=? StatusCode r) && (StatusCode r <=? 299) then None
  else Some (NewErrorResponse (Status r) (Some r) None).

(** *** Do *)

(** [ctx.Value(contextKeyAttempt).(int)]: a context is the attempt number it
    carries, if any; the conversion of a missing value gives 0. *)
Definition attemptOf (ctx : option Z) : Z := default 0 ctx.

(** [req.SetBasicAuth(username, password)] *)
Definition SetBasicAuth (username passwd : string) (req : HttpRequest Any)
  : HttpRequest Any :=
  Header_Set "Authorization" ("Basic " +:+ basicAuth lib username passwd) req.

(** The credentials: the switch on [c.authType], unless skipped. *)
Definition authenticate (c : client) (skipAuth : bool) (req : HttpRequest Any)
    (tr : list (Event Any))
  : (error Slot + HttpRequest Any) * list (Event Any) :=
  if skipAuth then (inr req, tr)
  else if authType c =? authTypeBasic then
    (inr (SetBasicAuth (userName c) (password c) req), tr)
  else if authType c =? authTypeApiKey then
    (inr (Header_Add (keyHeader c) (keyValue c) req), tr)
  else if authType c =? authTypePreflight then
    match preflightAuthFunc c with
    | Some f => (f req, tr ++ [EvPreflight req])
    | None => (inr req, tr)
    end
  else (inr req, tr).

(** The comment [set other headers] of [Do]. *)
Definition setOtherHeaders (c : client) (req : HttpRequest Any)
  : HttpRequest Any :=
  Header_Add "User-Agent" (userAgent c)
    (Header_Add "Accept" (mediaType c)
       (Header_Add "Content-Type"
          (mediaType c +:+ "; charset=" +:+ charset c) req)).

(** The slots of the error path whose message is not empty. *)
Definition nonEmpty (h : Heap) (e : Slot) : bool :=
  negb (String.eqb (slot_Error lib h e) "").

(** [Do] from the response on: the error path, then the success path. *)
Definition resolve (request : Request Any Slot) (dest : option Dest)
    (resp : Response) (st : State) : option (error Slot) * State :=
  let errorStructs := default [] (ErrorStructs request) in
  match checkForErrorResponse resp with
  | Some errResp =>
      match Unmarshal (RespBody resp) [toErrorSlice errorStructs] st with
      | (Some _, st) => (Some (errResponse errResp), st)
      | (None, st) =>
          let errs := List.map slotError
                        (List.filter (nonEmpty (heap st)) errorStructs) in
          (Some (errResponse
                   (NewErrorResponse (message errResp) (response errResp)
                      (errors_Join errs))), st)
      end
  | None =>
      match dest with
      | None => (None, st)
      | Some d =>
          let possibleStructs :=
            toResponse d :: List.map toErrorPtr errorStructs in
          match Unmarshal (RespBody resp) possibleStructs st with
          | (Some err, st) =>
              (Some (errResponse
                       (NewErrorResponse "failed to unmarshal response"
                          (Some resp) (Some err))), st)
          | (None, st) =>
              match List.find (nonEmpty (heap st)) errorStructs with
              | Some e =>
                  (Some (errResponse
                           (NewErrorResponse "error in response" (Some resp)
                              (Some (slotError e)))), st)
              | None => (None, st)
              end
          end
      end
  end.

(** [func (c *client) Do(ctx, request, response) error]. The receiver is
    [this st]. A retry is a recursive call; [fuel] bounds their depth.
    [attempt + 1] is computed only when [attempt < maxRetries], so it stays
    in the range of Go's [int] and needs no wrap-around. The span and the
    assignment to [c.httpClient.Jar] that follow the check of the base URL
    are not followed: the jar is a field of the [http.Client], not of the
    client, and no statement below speaks of it. *)
Fixpoint Do_rec (fuel : nat) (ctx : option Z) (request : Request Any Slot)
    (dest : option Dest) (st : State)
  : outcome (option (error Slot)) * State :=
  match fuel with
  | O => (OutOfFuel, st)
  | S fuel =>
      let c := this st in
      match baseURL c with
      | None =>
          (Returned (Some (errorString "client base URL not set")), st)
      | Some base =>
          match getHttpRequest request base with
          | Exited code => (Exited code, st)
          | OutOfFuel => (OutOfFuel, st)
          | Returned (inl err) => (Returned (Some err), st)
          | Returned (inr req) =>
              let skipAuth := default false (SkipAuth request) in
              match authenticate c skipAuth req (trace st) with
              | (inl err, tr) => (Returned (Some err), set_trace tr st)
              | (inr req, tr) =>
                  let req := setOtherHeaders c req in
                  let sent := tr ++ [EvSend req] in
                  match httpClient c (sendCount tr) req with
                  | inl err =>
                      let attempt := attemptOf ctx in
                      if attempt <? maxRetries c then
                        Do_rec fuel (Some (attempt + 1)) request dest
                          (set_trace (sent ++ [EvSleep 100]) st)
                      else
                        (Returned
                           (Some (wrapError "failed to do http request: " err)),
                         set_trace sent st)
                  | inr resp =>
                      let '(err, st) :=
                        resolve request dest resp (set_trace sent st) in
                      (Returned err, st)
                  end
              end
          end
      end
  end.

(** A call can retry [maxRetries - attempt] times at most. *)
Definition Do (ctx : option Z) (request : Request Any Slot)
    (dest : option Dest) (st : State)
  : outcome (option (error Slot)) * State :=
  Do_rec (S (Z.to_nat (maxRetries (this st) - attemptOf ctx)))
    ctx request dest st.
End Client.

Arguments client : clear implicits.
Arguments State : clear implicits.

(** ** client/client.go: the older copy of the package

    It differs from the code above in [Do] (no tracing, no cookies, no
    auth preference, no preflight) and in [getTaggedFields]. *)
Module Legacy.
Section Legacy.
Context {Any Slot Dest Heap : Type}.
Variable lib : Lib Any Slot Dest Heap.

(** One turn of the loop over the struct's fields. *)
Definition visitField (tag : string) (fields : gmap string (Value Any))
    (sf : StructField Any) : gmap string (Value Any) :=
  match Tag_Lookup tag (Tag sf) with
  | None => fields
  | Some tagValue =>
      let parts := strings_Split tagValue comma in
      let tagValue := hd "" parts in
      if slices_Contains parts "omitempty" && IsZero lib (FieldValue sf)
      then fields
      else if Kind_Pointer (FieldValue sf) && negb (IsNil (FieldValue sf))
      then <[tagValue := Elem (FieldValue sf)]> fields
      else <[tagValue := FieldValue sf]> fields
  end.

Definition getTaggedFields (elem : Request Any Slot) (tag : string)
  : gmap string (Value Any) :=
  match fields elem with
  | None => ∅
  | Some fs => fold_left (visitField tag) fs ∅
  end.
End Legacy.
End Legacy.

(** ** The options (the second part of client/error.go) and NewClient

    The struct [client] of Go also holds the transport the caller gave
    ([baseClient]) and the OAuth2 token source; [clientFull] adds them to
    [client]. [oauth2.NewClient] and [http.DefaultClient] belong to the
    libraries, and so does [clientcredentials.Config]. [WithHttpClient] is
    modelled for a transport that is not nil. *)
Module Options.
(** The two options [Do] is stated with, as functions on [client]. *)
Definition CoreWithDisallowUnknownFields {Any Slot} :=
  @WithDisallowUnknownFields Any Slot.
Definition CoreWithMaxRetries {Any Slot} := @WithMaxRetries Any Slot.

Section Options.
Context {Any Slot : Type}.
Variable TokenSource : Type.

Definition Transport : Type := nat -> HttpRequest Any -> error Slot + Response.

(** [oauth2.NewClient(ctx, source)]: the transport that asks [source] for a
    token and sends through the base transport found in [ctx], or through
    the default one. *)
Variable oauth2_NewClient : option Transport -> option TokenSource -> Transport.

(** [http.DefaultClient] *)
Variable http_DefaultClient : Transport.

(** [clientcredentials.Config] and its method [TokenSource(ctx)]. *)
Variable CredentialsConfig : Type.
Variable Config_TokenSource : CredentialsConfig -> TokenSource.

Record clientFull : Type := {
  core : client Any Slot;
  baseClient : option Transport;
  tokenSource : option TokenSource
}.

(** The type [Option]: a function that updates the client. *)
Definition Option : Type := clientFull -> clientFull.

(** The assignments to one field of [client] that the options make. *)
Definition set_httpClient (h : Transport) (c : client Any Slot)
  : client Any Slot :=
  {| httpClient := h; debug := debug c; userAgent := userAgent c;
     mediaType := mediaType c; charset := charset c; baseURL := baseURL c;
     disallowUnknownFields := disallowUnknownFields c;
     useCookies := useCookies c; authType := authType c;
     userName := userName c; password := password c;
     keyHeader := keyHeader c; keyValue := keyValue c;
     maxRetries := maxRetries c; jsoniterInstance := jsoniterInstance c;
     preflightAuthFunc := preflightAuthFunc c |}.

Definition set_authType (t : Z) (c : client Any Slot) : client Any Slot :=
  {| httpClient := httpClient c; debug := debug c; userAgent := userAgent c;
     mediaType := mediaType c; charset := charset c; baseURL := baseURL c;
     disallowUnknownFields := disallowUnknownFields c;
     useCookies := useCookies c; authType := t;
     userName := userName c; password := password c;
     keyHeader := keyHeader c; keyValue := keyValue c;
     maxRetries := maxRetries c; jsoniterInstance := jsoniterInstance c;
     preflightAuthFunc := preflightAuthFunc c |}.

Definition set_basic (username passwd : string) (c : client Any Slot)
  : client Any Slot :=
  {| httpClient := httpClient c; debug := debug c; userAgent := userAgent c;
     mediaType := mediaType c; charset := charset c; baseURL := baseURL c;
     disallowUnknownFields := disallowUnknownFields c;
     useCookies := useCookies c; authType := authType c;
     userName := username; password := passwd;
     keyHeader := keyHeader c; keyValue := keyValue c;
     maxRetries := maxRetries c; jsoniterInstance := jsoniterInstance c;
     preflightAuthFunc := preflightAuthFunc c |}.

Definition set_key (header apiKey : string) (c : client Any Slot)
  : client Any Slot :=
  {| httpClient := httpClient c; debug := debug c; userAgent := userAgent c;
     mediaType := mediaType c; charset := charset c; baseURL := baseURL c;
     disallowUnknownFields := disallowUnknownFields c;
     useCookies := useCookies c; authType := authType c;
     userName := userName c; password := password c;
     keyHeader := header; keyValue := apiKey;
     maxRetries := maxRetries c; jsoniterInstance := jsoniterInstance c;
     preflightAuthFunc := preflightAuthFunc c |}.

Definition set_debug (b : bool) (c : client Any Slot) : client Any Slot :=
  {| httpClient := httpClient c; debug := b; userAgent := userAgent c;
     mediaType := mediaType c; charset := charset c; baseURL := baseURL c;
     disallowUnknownFields := disallowUnknownFields c;
     useCookies := useCookies c; authType := authType c;
     userName := userName c; password := password c;
     keyHeader := keyHeader c; keyValue := keyValue c;
     maxRetries := maxRetries c; jsoniterInstance := jsoniterInstance c;
     preflightAuthFunc := preflightAuthFunc c |}.

Definition set_userAgent (ua : string) (c : client Any Slot)
  : client Any Slot :=
  {| httpClient := httpClient c; debug := debug c; userAgent := ua;
     mediaType := mediaType c; charset := charset c; baseURL := baseURL c;
     disallowUnknownFields := disallowUnknownFields c;
     useCookies := useCookies c; authType := authType c;
     userName := userName c; password := password c;
     keyHeader := keyHeader c; keyValue := keyValue c;
     maxRetries := maxRetries c; jsoniterInstance := jsoniterInstance c;
     preflightAuthFunc := preflightAuthFunc c |}.

Definition set_mediaType (mt : string) (c : client Any Slot)
  : client Any Slot :=
  {| httpClient := httpClient c; debug := debug c; userAgent := userAgent c;
     mediaType := mt; charset := charset c; baseURL := baseURL c;
     disallowUnknownFields := disallowUnknownFields c;
     useCookies := useCookies c; authType := authType c;
     userName := userName c; password := password c;
     keyHeader := keyHeader c; keyValue := keyValue c;
     maxRetries := maxRetries c; jsoniterInstance := jsoniterInstance c;
     preflightAuthFunc := preflightAuthFunc c |}.

Definition set_charset (cs : string) (c : client Any Slot)
  : client Any Slot :=
  {| httpClient := httpClient c; debug := debug c; userAgent := userAgent c;
     mediaType := mediaType c; charset := cs; baseURL := baseURL c;
     disallowUnknownFields := disallowUnknownFields c;
     useCookies := useCookies c; authType := authType c;
     userName := userName c; password := password c;
     keyHeader := keyHeader c; keyValue := keyValue c;
     maxRetries := maxRetries c; jsoniterInstance := jsoniterInstance c;
     preflightAuthFunc := preflightAuthFunc c |}.

Definition set_baseURL (u : URL) (c : client Any Slot) : client Any Slot :=
  {| httpClient := httpClient c; debug := debug c; userAgent := userAgent c;
     mediaType := mediaType c; charset := charset c; baseURL := Some u;
     disallowUnknownFields := disallowUnknownFields c;
     useCookies := useCookies c; authType := authType c;
     userName := userName c; password := password c;
     keyHeader := keyHeader c; keyValue := keyValue c;
     maxRetries := maxRetries c; jsoniterInstance := jsoniterInstance c;
     preflightAuthFunc := preflightAuthFunc c |}.

(** An option that touches [core] only. *)
Definition onCore (f : client Any Slot -> client Any Slot) : Option :=
  fun c => {| core := f (core c); baseClient := baseClient c;
              tokenSource := tokenSource c |}.

(** [getWrappedHttpClient(baseClient, source)] *)
Definition getWrappedHttpClient (base : option Transport)
    (source : option TokenSource) : Transport :=
  match base with
  | None => oauth2_NewClient None source
  | Some b => oauth2_NewClient (Some b) source
  end.

(** [WithHttpClient(httpClient)] *)
Definition WithHttpClient (h : Transport) : Option :=
  fun c =>
    (* if we have oauth2 configured, wrap the given http client *)
    if authType (core c) =? authTypeOAuth2 then
      {| core := set_httpClient
                   (getWrappedHttpClient (Some h) (tokenSource c)) (core c);
         baseClient := Some h; tokenSource := tokenSource c |}
    else
      {| core := set_httpClient h (core c);
         baseClient := Some h; tokenSource := tokenSource c |}.

(** [WithBasicAuth(username, password)] *)
Definition WithBasicAuth (username passwd : string) : Option :=
  onCore (fun c => set_basic username passwd (set_authType authTypeBasic c)).

(** [WithApiKeyAuth(header, apiKey)] *)
Definition WithApiKeyAuth (header apiKey : string) : Option :=
  onCore (fun c => set_key header apiKey (set_authType authTypeApiKey c)).

(** [WithOAuth2ClientCredentials(config)] *)
Definition WithOAuth2ClientCredentials (config : CredentialsConfig) : Option :=
  fun c =>
    {| core := set_httpClient
                 (getWrappedHttpClient (baseClient c)
                    (Some (Config_TokenSource config)))
                 (set_authType authTypeOAuth2 (core c));
       baseClient := baseClient c;
       tokenSource := Some (Config_TokenSource config) |}.

(** [WithOAuth2TokenSource(source)] *)
Definition WithOAuth2TokenSource (source : option TokenSource) : Option :=
  fun c =>
    {| core := set_httpClient (getWrappedHttpClient (baseClient c) source)
                 (set_authType authTypeOAuth2 (core c));
       baseClient := baseClient c; tokenSource := source |}.

(** [WithDebug(debug)] *)
Definition WithDebug (b : bool) : Option := onCore (set_debug b).

(** [WithUserAgent(userAgent)] *)
Definition WithUserAgent (ua : string) : Option := onCore (set_userAgent ua).

(** [WithBaseURL(baseURL)] *)
Definition WithBaseURL (u : URL) : Option := onCore (set_baseURL u).

(** [WithDisallowUnknownFields(b)] *)
Definition WithDisallowUnknownFields (b : bool) : Option :=
  onCore (CoreWithDisallowUnknownFields b).

(** [WithMediaType(mediaType)] *)
Definition WithMediaType (mt : string) : Option := onCore (set_mediaType mt).

(** [WithCharset(charset)] *)
Definition WithCharset (cs : string) : Option := onCore (set_charset cs).

(** [WithMaxRetries(maxRetries)] *)
Definition WithMaxRetries (n : Z) : Option := onCore (CoreWithMaxRetries n).

(** [func (c *client) ApplyOption(options Option)] *)
Definition ApplyOption (c : clientFull) (options : Option) : clientFull :=
  options c.

(** [NewClient(opts...)] *)
Definition NewClient (opts : list Option) : clientFull :=
  fold_left (fun c opt => opt c) opts
    {| core := {| httpClient := http_DefaultClient; debug := false;
                  userAgent := userAgent_const; mediaType := mediaType_const;
                  charset := defaultCharset; baseURL := None;
                  disallowUnknownFields := false; useCookies := false;
                  authType := authTypeNone; userName := ""; password := "";
                  keyHeader := ""; keyValue := ""; maxRetries := 0;
                  jsoniterInstance := None; preflightAuthFunc := None |};
       baseClient := None; tokenSource := None |}.

(** The options of the package that leave the base URL as it is. *)
Inductive leavesBaseURL : Option -> Prop :=
  | leaves_WithHttpClient h : leavesBaseURL (WithHttpClient h)
  | leaves_WithBasicAuth u p : leavesBaseURL (WithBasicAuth u p)
  | leaves_WithApiKeyAuth h k : leavesBaseURL (WithApiKeyAuth h k)
  | leaves_WithOAuth2ClientCredentials config :
      leavesBaseURL (WithOAuth2ClientCredentials config)
  | leaves_WithOAuth2TokenSource s : leavesBaseURL (WithOAuth2TokenSource s)
  | leaves_WithDebug b : leavesBaseURL (WithDebug b)
  | leaves_WithUserAgent ua : leavesBaseURL (WithUserAgent ua)
  | leaves_WithDisallowUnknownFields b :
      leavesBaseURL (WithDisallowUnknownFields b)
  | leaves_WithMediaType mt : leavesBaseURL (WithMediaType mt)
  | leaves_WithCharset cs : leavesBaseURL (WithCharset cs)
  | leaves_WithMaxRetries n : leavesBaseURL (WithMaxRetries n).
End Options.
End Options.

(** ** The shape of a call that retries *)

(** The events of [n] attempts, each one [round], with the backoff between. *)
Fixpoint retryTrace {Any} (round : list (Event Any)) (n : nat)
  : list (Event Any) :=
  match n with
  | O => []
  | S m =>
      match m with
      | O => round
      | S _ => round ++ [EvSleep 100] ++ retryTrace round m
      end
  end.

(** The events of [k] attempts that failed and were followed by a backoff. *)
Fixpoint failedRounds {Any} (round : list (Event Any)) (k : nat)
  : list (Event Any) :=
  match k with
  | O => []
  | S m => round ++ [EvSleep 100] ++ failedRounds round m
  end.

(** ** What the statements below speak of *)

(** What a field that is not a nil pointer contributes. *)
Definition deref {Any} (v : Value Any) : Value Any :=
  if Kind_Pointer v then Elem v else v.

(** Building and authenticating [request] succeeds for the client [c]: the
    authentication leaves the events [pre], and [sent] is the request that
    goes to the transport. *)
Definition prepares {Any Slot Dest Heap} (lib : Lib Any Slot Dest Heap)
    (c : client Any Slot) (request : Request Any Slot)
    (pre : list (Event Any)) (sent : HttpRequest Any) : Prop :=
  exists base req0 req1,
    baseURL c = Some base
    /\ getHttpRequest lib request base = Returned (inr req0)
    /\ authenticate lib c (default false (SkipAuth request)) req0 []
       = (inr req1, pre)
    /\ sent = setOtherHeaders c req1.

(** The attempt number a context carries after [k] retries. *)
Definition retried (k : nat) (ctx : option Z) : option Z :=
  match k with
  | O => ctx
  | S _ => Some (attemptOf ctx + Z.of_nat k)
  end.

(** The state in which [Do] resolves the answer to [sent]. *)
Definition sentState {Any Slot Heap} (pre : list (Event Any))
    (sent : HttpRequest Any) (st : State Any Slot Heap) : State Any Slot Heap :=
  set_trace (trace st ++ pre ++ [EvSend sent]) st.

(** What the success path decodes into: the destination, then every slot. *)
Definition possibleStructs {Any Slot Dest} (request : Request Any Slot)
    (d : Dest) : list (target Slot Dest) :=
  toResponse d :: List.map toErrorPtr (default [] (ErrorStructs request)).

(** The headers of a request that carries no credentials. *)
Definition plainHeaders {Any Slot} (c : client Any Slot)
  : list (string * string) :=
  [("Content-Type", mediaType c +:+ "; charset=" +:+ charset c);
   ("Accept", mediaType c);
   ("User-Agent", userAgent c)].

(** An event of a call that attaches no credentials. *)
Definition uncredentialed {Any Slot} (c : client Any Slot) (ev : Event Any)
  : Prop :=
  match ev with
  | EvPreflight _ => False
  | EvSend req => Header req = plainHeaders c
  | EvSleep ms => ms = 100
  end.

(** The query values [getHttpRequest] encodes: those of the base URL, then
    those of the path template, then the tagged fields. *)
Definition mergedQuery {Any Slot Dest Heap} (lib : Lib Any Slot Dest Heap)
    (request : Request Any Slot) (baseUrl parsed : URL)
  : gmap string (list string) :=
  map_fold (fun k v q => Values_Add k (fmt_Sprint lib v) q)
    (map_fold (fun k vv q => fold_left (fun q v => Values_Add k v q) vv q)
       (URL_Query lib (RawQuery baseUrl))
       (URL_Query lib (RawQuery parsed)))
    (getTaggedFields lib request "query").

(** The URL [getHttpRequest] hands to [http.NewRequestWithContext] when the
    path is [p]. *)
Definition builtURL {Any Slot Dest Heap} (lib : Lib Any Slot Dest Heap)
    (request : Request Any Slot) (baseUrl parsed : URL) (p : string) : URL :=
  {| Scheme := Scheme baseUrl; Host := Host baseUrl; Path := p;
     RawQuery := Values_Encode lib (mergedQuery lib request baseUrl parsed) |}.

(** How many sleeps a trace holds. *)
Definition sleepCount {Any} (tr : list (Event Any)) : nat :=
  length (List.filter isSleep tr).

(** An event a call may leave: a preflight call, a sleep of 100 ms, or a send
    whose last three headers are the ones [Do] always sets. *)
Definition wellFormedEvent {Any Slot} (c : client Any Slot) (ev : Event Any)
  : Prop :=
  match ev with
  | EvPreflight _ => True
  | EvSend req => exists hs, Header req = hs ++ plainHeaders c
  | EvSleep ms => ms = 100
  end.

(** ** A small world to run the client in

    Values are strings, numbers and string maps; the caller's memory is the
    list of the messages of its error structs; the libraries are the
    simplest functions of the right type. *)

Inductive GoVal : Type :=
  | GoString (s : string)
  | GoInt (n : Z)
  | GoMap (kv : list (string * string))   (* in the order the map is walked *)
  | GoTime (zeroBits selfZero : bool).    (* a value with an IsZero method *)

Definition sample_IsZero (v : GoVal) : bool :=
  match v with
  | GoString s => String.eqb s ""
  | GoInt n => n =? 0
  | GoMap kv => match kv with [] => true | _ => false end
  | GoTime bits _ => bits
  end.

Definition sample_isZeroer (v : Value GoVal) : option bool :=
  match v with
  | Val (GoTime _ z) => Some z
  | _ => None
  end.

Definition sample_Sprint (v : Value GoVal) : string :=
  match v with
  | Val (GoString s) => s
  | Val (GoInt n) => if n =? 0 then "0" else "n"
  | Val _ => "{}"
  | Nil => "<nil>"
  | Ptr _ => "0xc000010000"
  end.

(** Insertion of a pair by key, for the encoder that sorts map keys. *)
Fixpoint insertByKey (p : string * string) (l : list (string * string))
  : list (string * string) :=
  match l with
  | [] => [p]
  | q :: rest =>
      match String.compare (fst p) (fst q) with
      | Gt => q :: insertByKey p rest
      | _ => p :: l
      end
  end.

Definition sortByKey (l : list (string * string)) : list (string * string) :=
  fold_right insertByKey [] l.

(** The double quote, and a text between two of them. *)
Definition dq : string := String (Ascii.ascii_of_nat 34) EmptyString.

Definition quoted (s : string) : string := dq +:+ s +:+ dq.

Definition sample_member (p : string * string) : string :=
  quoted (fst p) +:+ ":" +:+ quoted (snd p).

(** The line feed [Encoder.Encode] writes after a value. *)
Definition lineFeed : string := String (Ascii.ascii_of_nat 10) EmptyString.

(** An encoder that walks a map in key order exactly when [SortMapKeys]. *)
Definition sample_Encode (cfg : Config) (v : GoVal) : error nat + bytes :=
  match v with
  | GoString s => inr (String.list_byte_of_string (quoted s +:+ lineFeed))
  | GoInt n =>
      inr (String.list_byte_of_string (sample_Sprint (Val v) +:+ lineFeed))
  | GoMap kv =>
      let kv := if SortMapKeys cfg then sortByKey kv else kv in
      inr (String.list_byte_of_string
             ("{" +:+ strings_Join (List.map sample_member kv) "," +:+ "}"
              +:+ lineFeed))
  | GoTime _ _ => inl (errorString "unsupported value")
  end.

(** The text up to the next double quote. *)
Fixpoint upToQuote (s : string) : string :=
  match s with
  | EmptyString => ""
  | String ch rest =>
      if Ascii.eqb ch (Ascii.ascii_of_nat 34) then "" else String ch (upToQuote rest)
  end.

Fixpoint dropPrefix (p s : string) : option string :=
  match p with
  | EmptyString => Some s
  | String a p' =>
      match s with
      | EmptyString => None
      | String b s' => if Ascii.eqb a b then dropPrefix p' s' else None
      end
  end.

(** The member [error] of a body that is an object starting with it. *)
Definition sample_errorMember (b : bytes) : option string :=
  upToQuote <$> dropPrefix ("{" +:+ quoted "error" +:+ ":" +:+ dq)
                  (String.string_of_list_byte b).

Definition sample_isObject (b : bytes) : bool :=
  match dropPrefix "{" (String.string_of_list_byte b) with
  | Some _ => true
  | None => false
  end.

(** A decoder. A body that is no JSON object, the empty body included,
    gives an error that is not [io.EOF], as json-iterator does (its
    [Unmarshal] turns an end of input while a value is expected into an
    error of its own). A pointer to an error struct receives the member
    [error] of a JSON object. A value that is no pointer (the slice of error
    structs) cannot be written through: the decoder reads the document and
    the slots keep what they held. *)
Definition sample_Unmarshal (cfg : Config) (b : bytes) (t : target nat unit)
    (h : list string) : list string * option (error nat) :=
  if sample_isObject b then
    match t with
    | toResponse _ => (h, None)
    | toErrorPtr s =>
        match sample_errorMember b with
        | Some msg => (<[s := msg]> h, None)
        | None => (h, None)
        end
    | toErrorSlice _ => (h, None)
    end
  else (h, Some (errorString "ReadObject: expect { or n")).

Fixpoint contains (needle s : string) : bool :=
  match dropPrefix needle s with
  | Some _ => true
  | None =>
      match s with
      | EmptyString => false
      | String _ rest => contains needle rest
      end
  end.

(** A template engine: an action that indexes its argument fails to run. *)
Definition sample_Execute (text : string) (data : gmap string (Value GoVal))
  : error nat + string :=
  if contains "{{index" text
  then inl (errorString "template: path: error calling index")
  else inr text.

(** The text before the first [sep], and the text after it if there is one. *)
Fixpoint cutAt (sep : Ascii.ascii) (s : string) : string * option string :=
  match s with
  | EmptyString => ("", None)
  | String ch rest =>
      if Ascii.eqb ch sep then ("", Some rest)
      else let '(a, b) := cutAt sep rest in (String ch a, b)
  end.

(** [url.Parse] of a path with an optional query. *)
Definition sample_Parse (s : string) : error nat + URL :=
  let '(p, q) := cutAt (Ascii.ascii_of_nat 63) s in
  inr {| Scheme := ""; Host := ""; Path := p; RawQuery := default "" q |}.

(** [URL.Query()]: the pairs [key=value] between the ampersands, in order. *)
Definition sample_Query (raw : string) : gmap string (list string) :=
  if String.eqb raw "" then ∅
  else
    fold_left
      (fun q pair =>
         let '(k, v) := cutAt (Ascii.ascii_of_nat 61) pair in
         Values_Add k (default "" v) q)
      (strings_Split raw (Ascii.ascii_of_nat 38)) ∅.

Fixpoint insertValues (p : string * list string)
    (l : list (string * list string)) : list (string * list string) :=
  match l with
  | [] => [p]
  | q :: rest =>
      match String.compare (fst p) (fst q) with
      | Gt => q :: insertValues p rest
      | _ => p :: l
      end
  end.

(** [Values.Encode()]: the pairs sorted by key, the values of a key in
    their order. *)
Definition sample_EncodeQuery (q : gmap string (list string)) : string :=
  strings_Join
    (List.concat
       (List.map (fun kv => List.map (fun v => fst kv +:+ "=" +:+ v) (snd kv))
          (fold_right insertValues [] (map_to_list q))))
    "&".

(** [URL.String()] *)
Definition sample_URLString (u : URL) : string :=
  Scheme u +:+ "://" +:+ Host u +:+ Path u
  +:+ (if String.eqb (RawQuery u) "" then "" else "?" +:+ RawQuery u).

Definition sampleLib : Lib GoVal nat unit (list string) :=
  {| slot_Error := fun h s => nth s h "";
     url_Parse := sample_Parse;
     URL_Query := sample_Query;
     Values_Encode := sample_EncodeQuery;
     path_Join := fun a b => a +:+ b;
     URL_String := sample_URLString;
     template_Parse := fun _ => None;
     template_Execute := sample_Execute;
     http_NewRequest_check := fun _ _ => None;
     fmt_Sprint := sample_Sprint;
     reflect_IsZero := sample_IsZero;
     isZeroer_IsZero := sample_isZeroer;
     jsoniter_Encode := sample_Encode;
     jsoniter_Unmarshal := sample_Unmarshal;
     basicAuth := fun u p => u +:+ ":" +:+ p |}.

Definition sampleBase : URL :=
  {| Scheme := "https"; Host := "api.example.com"; Path := "/v1";
     RawQuery := "" |}.

(** A transport that fails [n] times and then answers [resp]. *)
Definition failThenAnswer (n : nat) (resp : Response)
    (k : nat) (req : HttpRequest GoVal) : error nat + Response :=
  if (k <? n)%nat then inl (errorString "dial tcp: connection refused")
  else inr resp.

Definition sampleClient (transport : nat -> HttpRequest GoVal -> error nat + Response)
  : client GoVal nat :=
  {| httpClient := transport; debug := false; userAgent := userAgent_const;
     mediaType := mediaType_const; charset := defaultCharset;
     baseURL := Some sampleBase; disallowUnknownFields := false;
     useCookies := false; authType := authTypeApiKey;
     userName := "user"; password := "secret";
     keyHeader := "X-Api-Key"; keyValue := "k-123";
     maxRetries := 0; jsoniterInstance := None; preflightAuthFunc := None |}.

Definition sampleRequest (slots : option (list nat)) (skip : option bool)
  : Request GoVal nat :=
  {| Method := "GET"; PathTemplate := "/things"; fields := Some [];
     Body := None; ErrorStructs := slots; SkipAuth := skip |}.

Definition sampleState (c : client GoVal nat) (h : list string)
  : State GoVal nat (list string) :=
  {| this := c; heap := h; trace := [] |}.

Definition okResponse (body : string) : Response :=
  {| Status := "200 OK"; StatusCode := 200;
     RespBody := inr (String.list_byte_of_string body) |}.

Definition failResponse (body : string) : Response :=
  {| Status := "500 Internal Server Error"; StatusCode := 500;
     RespBody := inr (String.list_byte_of_string body) |}.

Definition quotaBody : string :=
  "{" +:+ quoted "error" +:+ ":" +:+ quoted "quota exceeded" +:+ "}".

(** The body the specification describes for a value that is neither a
    stream, bytes nor a string: the value encoded by the codec [cfg]. *)
Definition encodedWith {Any Slot Dest Heap} (lib : Lib Any Slot Dest Heap)
    (cfg : Config) (v : Any) : error Slot + option (Reader Any) :=
  match jsoniter_Encode lib cfg v with
  | inl err => inl (wrapError "failed to encode request body: " err)
  | inr buf => inr (Some (bytes_Buffer buf))
  end.

(** A request whose only field is [sf]. *)
Definition requestWithField (template : string) (sf : StructField GoVal)
  : Request GoVal nat :=
  {| Method := "GET"; PathTemplate := template; fields := Some [sf];
     Body := None; ErrorStructs := None; SkipAuth := None |}.

(** A request that carries [v] as its body. *)
Definition requestWithBody (v : BodyValue GoVal) : Request GoVal nat :=
  {| Method := "POST"; PathTemplate := "/things"; fields := Some [];
     Body := Some v; ErrorStructs := None; SkipAuth := None |}.

(** A nil pointer field tagged without omitempty. *)
Definition nilPointerField : StructField GoVal :=
  {| Tag := [("query", "q")]; FieldValue := Nil |}.

(** A field marked omitempty whose value is not the zero value but reports
    itself empty. *)
Definition selfZeroField : StructField GoVal :=
  {| Tag := [("query", "since,omitempty")];
     FieldValue := Val (GoTime false true) |}.

(** A map walked in an order that is not the order of its keys. *)
Definition unsortedMap : GoVal := GoMap [("b", "2"); ("a", "1")].

(** A path parameter and a path template that indexes it. *)
Definition indexingField : StructField GoVal :=
  {| Tag := [("path", "id")]; FieldValue := Val (GoInt 5) |}.

Definition indexingRequest : Request GoVal nat :=
  requestWithField "/things/{{index .id 1}}" indexingField.

(** The request [sampleRequest] as the api-key client sends it. *)
Definition sampleSent : HttpRequest GoVal :=
  {| ReqMethod := "GET";
     ReqURL := "https://api.example.com/v1/things";
     Header := [("X-Api-Key", "k-123");
                ("Content-Type", "application/json; charset=utf-8");
                ("Accept", "application/json");
                ("User-Agent", "omniboost/0.0.1")];
     ReqBody := None |}.

Definition refused : error nat := errorString "dial tcp: connection refused".

(** A field without omitempty that holds the zero value. *)
Definition zeroIntField : StructField GoVal :=
  {| Tag := [("query", "page")]; FieldValue := Val (GoInt 0) |}.

(** A client that authenticates by the preflight function [f]. *)
Definition samplePreflightClient
    (f : HttpRequest GoVal -> error nat + HttpRequest GoVal)
    (transport : nat -> HttpRequest GoVal -> error nat + Response)
  : client GoVal nat :=
  {| httpClient := transport; debug := false; userAgent := userAgent_const;
     mediaType := mediaType_const; charset := defaultCharset;
     baseURL := Some sampleBase; disallowUnknownFields := false;
     useCookies := false; authType := authTypePreflight;
     userName := ""; password := ""; keyHeader := ""; keyValue := "";
     maxRetries := 5; jsoniterInstance := None; preflightAuthFunc := Some f |}.

(** A preflight function that signs the request, and one that fails. *)
Definition signing (req : HttpRequest GoVal)
  : error nat + HttpRequest GoVal :=
  inr (Header_Add "X-Signature" "abc" req).

Definition refusing (req : HttpRequest GoVal)
  : error nat + HttpRequest GoVal :=
  inl (errorString "no signing key").

(** The request [sampleRequest] as [getHttpRequest] builds it. *)
Definition sampleBuilt : HttpRequest GoVal :=
  {| ReqMethod := "GET"; ReqURL := "https://api.example.com/v1/things";
     Header := []; ReqBody := None |}.

(** An OAuth2 wrapper that sends through the base transport it is given. *)
Definition sample_oauth2
    (base : option (nat -> HttpRequest GoVal -> error nat + Response))
    (source : option unit)
  : nat -> HttpRequest GoVal -> error nat + Response :=
  default (failThenAnswer 0 (okResponse "")) base.

(** A base URL, a path template and a tagged field that all carry a
    query: the key [page] comes from the template and from the field. *)
Definition queryBase : URL :=
  {| Scheme := "https"; Host := "api.example.com"; Path := "/v1";
     RawQuery := "token=abc" |}.

Definition pageField : StructField GoVal :=
  {| Tag := [("query", "page")]; FieldValue := Val (GoString "2") |}.

Definition queryRequest : Request GoVal nat :=
  requestWithField "/things?page=1&sort=asc" pageField.

(** A request with an empty method. *)
Definition noMethodRequest : Request GoVal nat :=
  {| Method := ""; PathTemplate := "/things"; fields := Some [];
     Body := None; ErrorStructs := None; SkipAuth := None |}.

(** ** error.go: what an [ErrorResponse] renders and unwraps to *)

Section ErrorFacts.
Context {Slot Heap : Type}.
Variable slot_Error : Heap -> Slot -> string.

Lemma strings_Join_pair (a b sep : string) :
  strings_Join [a; b] sep = a +:+ sep +:+ b.
Proof. reflexivity. Qed.

(** C10. For every ErrorResponse, [Error()] is the message alone when the
    parent is nil, and otherwise the message, [": "] and the parent's
    [Error()]; [Unwrap()] is the parent; and [NewErrorResponse] stores the
    message, the response and the parent it is given. *)
Theorem ErrorResponse_renders_message_and_parent
    (h : Heap) (e : ErrorResponse Slot) :
  Error slot_Error h (errResponse e) =
    match Parent e with
    | None => message e
    | Some p => message e +:+ ": " +:+ Error slot_Error h p
    end
  /\ Unwrap e = Parent e
  /\ (forall msg resp parent,
        message (NewErrorResponse (Slot := Slot) msg resp parent) = msg
        /\ ResponseOf (NewErrorResponse msg resp parent) = resp
        /\ Unwrap (NewErrorResponse msg resp parent) = parent
        /\ Error slot_Error h (errResponse (NewErrorResponse msg resp parent)) =
             match parent with
             | None => msg
             | Some p => msg +:+ ": " +:+ Error slot_Error h p
             end).
Proof.
  split; [| split].
  - cbn [Error]. unfold ErrorResponse_Error.
    destruct (Parent e) as [p|]; [apply strings_Join_pair | reflexivity].
  - reflexivity.
  - intros msg resp parent. split; [reflexivity |]. split; [reflexivity |].
    split; [reflexivity |].
    cbn [Error]. unfold ErrorResponse_Error, NewErrorResponse.
    cbn [Parent message].
    destruct parent as [p|]; [apply strings_Join_pair | reflexivity].
Qed.
End ErrorFacts.

(** ** getTaggedFields, getRequestBody, getHttpRequest *)

Section BuilderFacts.
Context {Any Slot Dest Heap : Type}.
Variable lib : Lib Any Slot Dest Heap.

Lemma visitField_nil tag (m : gmap string (Value Any)) (sf : StructField Any) :
  FieldValue sf = Nil -> visitField lib tag m sf = m.
Proof.
  intros Hnil. unfold visitField. rewrite Hnil. cbn.
  destruct (Tag_Lookup tag (Tag sf)); reflexivity.
Qed.

Lemma visitField_omitempty tag (m : gmap string (Value Any))
    (sf : StructField Any) tv :
  Tag_Lookup tag (Tag sf) = Some tv ->
  slices_Contains (strings_Split tv comma) "omitempty" = true ->
  IsZero lib (deref (FieldValue sf)) = true
  \/ isZeroer_IsZero lib (deref (FieldValue sf)) = Some true ->
  visitField lib tag m sf = m.
Proof.
  intros Htag Hom Hzero. unfold visitField. rewrite Htag, Hom.
  unfold deref in Hzero.
  destruct (FieldValue sf) as [|elem|a]; cbn in *; [reflexivity | |].
  - destruct Hzero as [Hz|Hz]; rewrite Hz; [reflexivity |].
    destruct (IsZero lib elem); reflexivity.
  - destruct Hzero as [Hz|Hz]; rewrite Hz; [reflexivity |].
    destruct (reflect_IsZero lib a); reflexivity.
Qed.

Lemma visitField_plain tag (m : gmap string (Value Any))
    (sf : StructField Any) tv :
  Tag_Lookup tag (Tag sf) = Some tv ->
  slices_Contains (strings_Split tv comma) "omitempty" = false ->
  FieldValue sf <> Nil ->
  visitField lib tag m sf =
    <[hd "" (strings_Split tv comma) := deref (FieldValue sf)]> m.
Proof.
  intros Htag Hom Hnn. unfold visitField, deref. rewrite Htag, Hom.
  destruct (FieldValue sf) as [|elem|a]; cbn; [congruence | reflexivity..].
Qed.

Lemma visitField_other tag (m : gmap string (Value Any))
    (sf : StructField Any) key :
  (forall tv, Tag_Lookup tag (Tag sf) = Some tv ->
              hd "" (strings_Split tv comma) <> key) ->
  visitField lib tag m sf !! key = m !! key.
Proof.
  intros Hkey. unfold visitField.
  destruct (Tag_Lookup tag (Tag sf)) as [tv|]; [| reflexivity].
  specialize (Hkey tv eq_refl).
  repeat match goal with
         | |- context [if ?b then _ else _] => destruct b
         | |- context [match ?o with Some _ => _ | None => _ end] => destruct o
         end;
    try reflexivity; apply lookup_insert_ne; assumption.
Qed.

Lemma visitFields_other tag key (fs : list (StructField Any)) :
  forall m : gmap string (Value Any),
  Forall (fun sf => forall tv, Tag_Lookup tag (Tag sf) = Some tv ->
                               hd "" (strings_Split tv comma) <> key) fs ->
  fold_left (visitField lib tag) fs m !! key = m !! key.
Proof.
  induction fs as [|sf fs IH]; intros m Hall; [reflexivity |].
  inversion Hall as [|? ? Hsf Hfs]; subst. cbn [fold_left].
  rewrite IH by assumption. apply visitField_other. assumption.
Qed.

Lemma visitField_key_kept tag (m : gmap string (Value Any))
    (sf : StructField Any) key :
  is_Some (m !! key) -> is_Some (visitField lib tag m sf !! key).
Proof.
  intros Hm. unfold visitField.
  repeat match goal with
         | |- context [if ?b then _ else _] => destruct b
         | |- context [match ?o with Some _ => _ | None => _ end] => destruct o
         end;
    try assumption; rewrite lookup_insert; case_decide; eauto.
Qed.

Lemma visitFields_key_kept tag key (fs : list (StructField Any)) :
  forall m : gmap string (Value Any),
  is_Some (m !! key) -> is_Some (fold_left (visitField lib tag) fs m !! key).
Proof.
  induction fs as [|sf fs IH]; intros m Hm; [assumption |].
  cbn [fold_left]. apply IH, visitField_key_kept, Hm.
Qed.

(** X18. The current [getTaggedFields], field by field: a nil pointer and an
    empty field marked omitempty leave the map as if the field were not
    there; any other field without omitempty is in the map under its tag
    name, with its value unless a later field takes the same name. *)
Lemma getTaggedFields_field (r : Request Any Slot) tag
    (before after : list (StructField Any)) (sf : StructField Any) tv :
  fields r = Some (before ++ sf :: after) ->
  Tag_Lookup tag (Tag sf) = Some tv ->
  let parts := strings_Split tv comma in
  let without :=
    fold_left (visitField lib tag) after
      (fold_left (visitField lib tag) before ∅) in
  (FieldValue sf = Nil -> getTaggedFields lib r tag = without)
  /\ (slices_Contains parts "omitempty" = true ->
      IsZero lib (deref (FieldValue sf)) = true
      \/ isZeroer_IsZero lib (deref (FieldValue sf)) = Some true ->
      getTaggedFields lib r tag = without)
  /\ (slices_Contains parts "omitempty" = false ->
      FieldValue sf <> Nil ->
      is_Some (getTaggedFields lib r tag !! hd "" parts)
      /\ (Forall (fun sf' => forall tv', Tag_Lookup tag (Tag sf') = Some tv' ->
             hd "" (strings_Split tv' comma) <> hd "" parts) after ->
          getTaggedFields lib r tag !! hd "" parts
          = Some (deref (FieldValue sf)))).
Proof.
  intros Hfs Htag parts without. unfold getTaggedFields. rewrite Hfs.
  rewrite fold_left_app. cbn [fold_left].
  split; [| split].
  - intros Hnil. rewrite (visitField_nil _ _ _ Hnil). reflexivity.
  - intros Hom Hz. rewrite (visitField_omitempty _ _ _ _ Htag Hom Hz).
    reflexivity.
  - intros Hom Hnn. rewrite (visitField_plain _ _ _ _ Htag Hom Hnn).
    fold parts. split.
    + apply visitFields_key_kept. rewrite lookup_insert_eq. eauto.
    + intros Hafter. rewrite visitFields_other by assumption.
      apply lookup_insert_eq.
Qed.

(** C6, as the code has it. A stream passes through unchanged, bytes and
    strings become fixed-length readers, and any other value is encoded by
    the package's default codec [ConfigDefault] (the one behind
    [jsoniter.NewEncoder]); no client takes part in it. *)
Theorem getRequestBody_uses_default_codec (r : Request Any Slot) :
  getRequestBody lib r =
    match Body r with
    | None => inr None
    | Some (bodyReader s) => inr (Some (passThrough s))
    | Some (bodyBytes b) => inr (Some (bytes_NewReader b))
    | Some (bodyString s) =>
        inr (Some (bytes_NewReader (String.list_byte_of_string s)))
    | Some (bodyOther v) => encodedWith lib ConfigDefault v
    end.
Proof.
  unfold getRequestBody, encodedWith.
  destruct (Body r) as [[s|b|s|v]|]; reflexivity.
Qed.

Lemma size_pos (m : gmap string (Value Any)) :
  m <> ∅ -> (0 <? size m)%nat = true.
Proof.
  intros Hne. apply Nat.ltb_lt.
  apply map_size_non_empty_iff in Hne. lia.
Qed.

(** C2, as the code has it. When the path has parameters and running the
    path template fails, [getHttpRequest] ends the process ([log.Fatal])
    and returns nothing; so does [Do]. *)
Theorem getHttpRequest_template_failure_exits
    (request : Request Any Slot) (base parsed : URL) (err : error Slot) :
  url_Parse lib (PathTemplate request) = inr parsed ->
  getTaggedFields lib request "path" <> ∅ ->
  template_Parse lib (path_Join lib (Path base) (Path parsed)) = None ->
  template_Execute lib (path_Join lib (Path base) (Path parsed))
    (getTaggedFields lib request "path") = inl err ->
  getHttpRequest lib request base = Exited 1
  /\ (forall ctx dest (st : State Any Slot Heap),
        baseURL (this st) = Some base ->
        Do lib ctx request dest st = (Exited 1, st)).
Proof.
  intros Hparse Hparams Htmpl Hexec.
  assert (Hexit : getHttpRequest lib request base = Exited 1).
  { unfold getHttpRequest. rewrite Hparse. cbn [Path set_Path set_RawQuery].
    rewrite (size_pos _ Hparams), Htmpl, Hexec. reflexivity. }
  split; [exact Hexit |].
  intros ctx dest st Hbase. unfold Do. cbn [Do_rec].
  rewrite Hbase, Hexit. reflexivity.
Qed.
End BuilderFacts.

(** C7, on the older copy of the package (client/client.go). A nil pointer
    field tagged without omitempty is put in the parameter map, and a field
    marked omitempty that reports itself empty is kept; the current
    [getTaggedFields] leaves both out. *)
Theorem Legacy_getTaggedFields_keeps_nil_pointer :
  Legacy.getTaggedFields sampleLib (requestWithField "/things" nilPointerField)
    "query" !! "q" = Some Nil
  /\ getTaggedFields sampleLib (requestWithField "/things" nilPointerField)
       "query" !! "q" = None
  /\ Legacy.getTaggedFields sampleLib (requestWithField "/things" selfZeroField)
       "query" !! "since" = Some (Val (GoTime false true))
  /\ getTaggedFields sampleLib (requestWithField "/things" selfZeroField)
       "query" !! "since" = None.
Proof. repeat split; vm_compute; reflexivity. Qed.

(** C6 fails as stated: the body is not what the client's codec gives. The
    client's codec sorts map keys, the default codec that [getRequestBody]
    uses does not. *)
Lemma getRequestBody_ignores_client_codec :
  getRequestBody sampleLib (requestWithBody (bodyOther unsortedMap))
  <> encodedWith sampleLib
       (fst (GetJsoniter (sampleClient (failThenAnswer 0 (okResponse "")))))
       unsortedMap.
Proof. vm_compute. intros H. discriminate H. Qed.

Lemma getHttpRequest_template_failure_exits_witness :
  getHttpRequest sampleLib indexingRequest sampleBase = Exited 1
  /\ (forall ctx dest (st : State GoVal nat (list string)),
        baseURL (this st) = Some sampleBase ->
        Do sampleLib ctx indexingRequest dest st = (Exited 1, st)).
Proof.
  apply (getHttpRequest_template_failure_exits sampleLib indexingRequest
           sampleBase
           {| Scheme := ""; Host := ""; Path := "/things/{{index .id 1}}";
              RawQuery := "" |}
           (errorString "template: path: error calling index")).
  - reflexivity.
  - intros H. apply (f_equal (fun m => m !! "id")) in H. vm_compute in H.
    discriminate H.
  - reflexivity.
  - vm_compute. reflexivity.
Defined.

(** ** Do *)

Section DoFacts.
Context {Any Slot Dest Heap : Type}.
Variable lib : Lib Any Slot Dest Heap.

Implicit Types (st : State Any Slot Heap) (c : client Any Slot)
  (tr pre round : list (Event Any)) (request : Request Any Slot)
  (dest : option Dest) (ctx : option Z).

Lemma set_trace_id st : set_trace (trace st) st = st.
Proof. destruct st; reflexivity. Qed.

Lemma set_trace_twice tr tr' st :
  set_trace tr (set_trace tr' st) = set_trace tr st.
Proof. reflexivity. Qed.

Lemma sendCount_app tr tr' :
  sendCount (tr ++ tr') = (sendCount tr + sendCount tr')%nat.
Proof. unfold sendCount. rewrite List.filter_app, length_app. reflexivity. Qed.

Lemma retried_S k ctx :
  retried k (Some (attemptOf ctx + 1)) = retried (S k) ctx.
Proof.
  unfold retried, attemptOf. destruct k; cbn; f_equal; lia.
Qed.

Lemma checkForErrorResponse_success (resp : Response) :
  200 <= StatusCode resp <= 299 ->
  checkForErrorResponse (Slot := Slot) resp = None.
Proof.
  intros [Hlo Hhi]. unfold checkForErrorResponse.
  destruct (Z.leb_spec 200 (StatusCode resp)); [| lia].
  destruct (Z.leb_spec (StatusCode resp) 299); [reflexivity | lia].
Qed.

Lemma checkForErrorResponse_failure (resp : Response) :
  ~ (200 <= StatusCode resp <= 299) ->
  checkForErrorResponse (Slot := Slot) resp
  = Some (NewErrorResponse (Status resp) (Some resp) None).
Proof.
  intros Hout. unfold checkForErrorResponse.
  destruct (Z.leb_spec 200 (StatusCode resp)); [| reflexivity].
  destruct (Z.leb_spec (StatusCode resp) 299); [lia | reflexivity].
Qed.

(** *** The decoding leaves the trace alone *)

Lemma decodeEach_trace b (vv : list (target Slot Dest)) :
  forall st errs, trace (snd (decodeEach lib b vv st errs)) = trace st.
Proof.
  induction vv as [|v vv IH]; intros st errs; cbn [decodeEach]; [reflexivity |].
  destruct (GetJsoniter (this st)) as [api c'].
  destruct (jsoniter_Unmarshal lib api b v (heap st)) as [h err].
  rewrite IH. reflexivity.
Qed.

Lemma Unmarshal_trace r (vv : list (target Slot Dest)) st :
  trace (snd (Unmarshal lib r vv st)) = trace st.
Proof.
  unfold Unmarshal. destruct (length vv =? 0)%nat; [reflexivity |].
  destruct r as [e|b]; [reflexivity |].
  pose proof (decodeEach_trace b vv st []) as Htr.
  destruct (decodeEach lib b vv st []) as [errs st'].
  destruct (length errs =? length vv)%nat; exact Htr.
Qed.

Lemma resolve_trace request dest resp st :
  trace (snd (resolve lib request dest resp st)) = trace st.
Proof.
  unfold resolve.
  destruct (checkForErrorResponse resp) as [errResp|].
  - pose proof (Unmarshal_trace (RespBody resp)
                  [toErrorSlice (default [] (ErrorStructs request))] st) as Htr.
    destruct (Unmarshal lib _ _ st) as [[err|] st']; exact Htr.
  - destruct dest as [d|]; [| reflexivity].
    pose proof (Unmarshal_trace (RespBody resp)
                  (toResponse d
                   :: List.map toErrorPtr (default [] (ErrorStructs request)))
                  st) as Htr.
    destruct (Unmarshal lib _ _ st) as [[err|] st']; [exact Htr |].
    destruct (List.find _ _); exact Htr.
Qed.

(** *** The authentication *)

Lemma authenticate_events c skip (req : HttpRequest Any) tr :
  authenticate lib c skip req tr =
    (fst (authenticate lib c skip req []),
     tr ++ snd (authenticate lib c skip req [])).
Proof.
  unfold authenticate.
  destruct skip; [cbn; rewrite app_nil_r; reflexivity |].
  destruct (authType c =? authTypeBasic);
    [cbn; rewrite app_nil_r; reflexivity |].
  destruct (authType c =? authTypeApiKey);
    [cbn; rewrite app_nil_r; reflexivity |].
  destruct (authType c =? authTypePreflight);
    [| cbn; rewrite app_nil_r; reflexivity].
  destruct (preflightAuthFunc c); cbn; [| rewrite app_nil_r]; reflexivity.
Qed.

Lemma authenticate_sends_nothing c skip (req : HttpRequest Any) :
  sendCount (snd (authenticate lib c skip req [])) = 0%nat.
Proof.
  unfold authenticate.
  destruct skip; [reflexivity |].
  destruct (authType c =? authTypeBasic); [reflexivity |].
  destruct (authType c =? authTypeApiKey); [reflexivity |].
  destruct (authType c =? authTypePreflight); [| reflexivity].
  destruct (preflightAuthFunc c); reflexivity.
Qed.

(** *** One attempt *)

Section Attempt.
Variables (c : client Any Slot) (request : Request Any Slot)
  (pre : list (Event Any)) (sent : HttpRequest Any).
Hypothesis Hprep : prepares lib c request pre sent.

Lemma prepared_sends_nothing : sendCount pre = 0%nat.
Proof.
  destruct Hprep as (base & req0 & req1 & _ & _ & Hauth & _).
  rewrite <- (authenticate_sends_nothing c
                (default false (SkipAuth request)) req0).
  rewrite Hauth. reflexivity.
Qed.

(** What [Do] does once the request is on its way. *)
Lemma Do_rec_attempt fuel ctx dest st :
  this st = c ->
  Do_rec lib (S fuel) ctx request dest st =
    match httpClient c (sendCount (trace st)) sent with
    | inl err =>
        if attemptOf ctx <? maxRetries c then
          Do_rec lib fuel (Some (attemptOf ctx + 1)) request dest
            (set_trace (trace st ++ (pre ++ [EvSend sent]) ++ [EvSleep 100])
               st)
        else
          (Returned (Some (wrapError "failed to do http request: " err)),
           set_trace (trace st ++ pre ++ [EvSend sent]) st)
    | inr resp =>
        let '(err, st') :=
          resolve lib request dest resp
            (set_trace (trace st ++ pre ++ [EvSend sent]) st) in
        (Returned err, st')
    end.
Proof.
  intros Hthis.
  pose proof prepared_sends_nothing as Hpre.
  destruct Hprep as (base & req0 & req1 & Hbase & Hbuild & Hauth & Hsent).
  cbn [Do_rec]. rewrite Hthis, Hbase, Hbuild.
  rewrite authenticate_events, Hauth. cbn [fst snd].
  rewrite <- Hsent, sendCount_app, Hpre, Nat.add_0_r.
  rewrite <- !app_assoc. reflexivity.
Qed.

(** [k] failed attempts in a row, each followed by the backoff, when
    that many retries are left. *)
Lemma Do_rec_retries dest :
  forall (k fuel : nat) ctx st,
    this st = c ->
    (forall i, (i < k)%nat ->
       exists err,
         httpClient c (sendCount (trace st) + i) sent = inl err) ->
    attemptOf ctx + Z.of_nat k <= maxRetries c ->
    Do_rec lib (k + fuel) ctx request dest st =
      Do_rec lib fuel (retried k ctx) request dest
        (set_trace
           (trace st ++ failedRounds (pre ++ [EvSend sent]) k) st).
Proof.
  induction k as [|k IH]; intros fuel ctx st Hthis Hfail Hleft.
  - cbn. rewrite app_nil_r, set_trace_id. reflexivity.
  - replace (S k + fuel)%nat with (S (k + fuel)) by lia.
    rewrite (Do_rec_attempt _ ctx dest st Hthis).
    destruct (Hfail 0%nat ltac:(lia)) as [err Hfirst].
    rewrite Nat.add_0_r in Hfirst. rewrite Hfirst.
    destruct (Z.ltb_spec (attemptOf ctx) (maxRetries c)) as [_|Hge];
      [| exfalso; lia].
    rewrite IH.
    + cbn [set_trace trace this heap failedRounds].
      f_equal.
      * apply retried_S.
      * unfold set_trace. cbn [this heap trace]. f_equal.
        rewrite <- !app_assoc. reflexivity.
    + exact Hthis.
    + intros i Hi. cbn [set_trace trace].
      rewrite !sendCount_app, prepared_sends_nothing. cbn.
      replace (sendCount (trace st) + 1 + i)%nat
        with (sendCount (trace st) + S i)%nat by lia.
      apply Hfail. lia.
    + unfold attemptOf in *. cbn. lia.
Qed.

(** *** The trace of a call that retries *)

Lemma prepared_events : pre = [] \/ exists req, pre = [EvPreflight req].
Proof.
  destruct Hprep as (base & req0 & req1 & _ & _ & Hauth & _).
  revert Hauth. unfold authenticate.
  destruct (default false (SkipAuth request)); [intros [= _ <-]; auto |].
  destruct (authType c =? authTypeBasic); [intros [= _ <-]; auto |].
  destruct (authType c =? authTypeApiKey); [intros [= _ <-]; auto |].
  destruct (authType c =? authTypePreflight); [| intros [= _ <-]; auto].
  destruct (preflightAuthFunc c); intros [= _ <-]; eauto.
Qed.

Lemma round_one_send : sendCount (pre ++ [EvSend sent]) = 1%nat.
Proof. rewrite sendCount_app, prepared_sends_nothing. reflexivity. Qed.

Lemma round_no_sleep : List.filter isSleep (pre ++ [EvSend sent]) = [].
Proof. destruct prepared_events as [-> | [req ->]]; reflexivity. Qed.

Lemma failedRounds_then_round k :
  failedRounds (pre ++ [EvSend sent]) k ++ (pre ++ [EvSend sent])
  = retryTrace (pre ++ [EvSend sent]) (S k).
Proof.
  induction k as [|k IH]; [reflexivity |].
  cbn [failedRounds]. rewrite <- !app_assoc, app_assoc, IH.
  cbn [retryTrace]. rewrite <- !app_assoc. reflexivity.
Qed.

Lemma sendCount_failedRounds k :
  sendCount (failedRounds (pre ++ [EvSend sent]) k) = k.
Proof.
  induction k as [|k IH]; [reflexivity |].
  cbn [failedRounds].
  rewrite sendCount_app, round_one_send, sendCount_app, IH.
  reflexivity.
Qed.

Lemma sendCount_retryTrace n :
  sendCount (retryTrace (pre ++ [EvSend sent]) n) = n.
Proof.
  destruct n as [|k]; [reflexivity |].
  rewrite <- failedRounds_then_round, sendCount_app,
    sendCount_failedRounds, round_one_send. lia.
Qed.

Lemma sleeps_retryTrace n :
  List.filter isSleep (retryTrace (pre ++ [EvSend sent]) n)
  = repeat (EvSleep 100) (n - 1).
Proof.
  destruct n as [|k]; [reflexivity |].
  rewrite <- failedRounds_then_round, List.filter_app, round_no_sleep,
    app_nil_r.
  replace (S k - 1)%nat with k by lia.
  induction k as [|k IH]; [reflexivity |].
  cbn [failedRounds].
  rewrite List.filter_app, round_no_sleep, List.filter_app, IH.
  reflexivity.
Qed.

(** The call is answered at once: [Do] is the resolution of the answer. *)
Lemma Do_answered ctx dest st resp :
  this st = c ->
  httpClient c (sendCount (trace st)) sent = inr resp ->
  Do lib ctx request dest st =
    (Returned
       (fst (resolve lib request dest resp
               (set_trace (trace st ++ pre ++ [EvSend sent]) st))),
     snd (resolve lib request dest resp
            (set_trace (trace st ++ pre ++ [EvSend sent]) st))).
Proof.
  intros Hthis Hsend. unfold Do.
  rewrite (Do_rec_attempt _ ctx dest st Hthis), Hsend.
  destruct (resolve lib request dest resp _); reflexivity.
Qed.

(** The send fails and attempts are left: [Do] sleeps and is [Do] again, on
    the same request, with the counter one higher. *)
Lemma Do_retry ctx dest st err :
  this st = c ->
  httpClient c (sendCount (trace st)) sent = inl err ->
  attemptOf ctx < maxRetries c ->
  Do lib ctx request dest st =
    Do lib (Some (attemptOf ctx + 1)) request dest
      (set_trace (trace st ++ (pre ++ [EvSend sent]) ++ [EvSleep 100]) st).
Proof.
  intros Hthis Hsend Hleft. unfold Do.
  rewrite (Do_rec_attempt _ ctx dest st Hthis), Hsend.
  destruct (Z.ltb_spec (attemptOf ctx) (maxRetries c)) as [_|Hge];
    [| exfalso; lia].
  cbn [set_trace this]. rewrite Hthis. f_equal.
  unfold attemptOf at 2. cbn. lia.
Qed.

(** X21. The send fails and no attempt is left (the attempt number of the
    context has reached [maxRetries]; for a first call: [maxRetries] is 0,
    the default, or less): [Do] returns the transport error wrapped in
    [failed to do http request] after this one send, without sleeping. *)
Lemma Do_gives_up ctx dest st err :
  this st = c ->
  httpClient c (sendCount (trace st)) sent = inl err ->
  maxRetries c <= attemptOf ctx ->
  Do lib ctx request dest st =
    (Returned (Some (wrapError "failed to do http request: " err)),
     set_trace (trace st ++ pre ++ [EvSend sent]) st).
Proof.
  intros Hthis Hsend Hnone. unfold Do.
  rewrite (Do_rec_attempt _ ctx dest st Hthis), Hsend.
  destruct (Z.ltb_spec (attemptOf ctx) (maxRetries c)) as [Hlt|_];
    [exfalso; lia | reflexivity].
Qed.
End Attempt.

(** *** Do always comes back *)

Lemma getHttpRequest_in_bounds request (base : URL) :
  getHttpRequest lib request base <> OutOfFuel.
Proof.
  unfold getHttpRequest.
  destruct (url_Parse lib (PathTemplate request)) as [err|parsed];
    [discriminate |].
  destruct (0 <? size (getTaggedFields lib request "path"))%nat.
  - destruct (template_Parse lib _); [discriminate |].
    destruct (template_Execute lib _ _); [discriminate |].
    destruct (getRequestBody lib request); [discriminate |].
    destruct (http_NewRequest lib _ _ _); discriminate.
  - destruct (getRequestBody lib request); [discriminate |].
    destruct (http_NewRequest lib _ _ _); discriminate.
Qed.

Lemma Do_rec_in_bounds request dest :
  forall (fuel : nat) ctx st,
    (Z.to_nat (maxRetries (this st) - attemptOf ctx) < fuel)%nat ->
    fst (Do_rec lib fuel ctx request dest st) <> OutOfFuel.
Proof.
  induction fuel as [|fuel IH]; intros ctx st Hfuel; [lia |].
  cbn [Do_rec].
  destruct (baseURL (this st)) as [base|]; [| discriminate].
  pose proof (getHttpRequest_in_bounds request base) as Hbuild.
  destruct (getHttpRequest lib request base) as [[err|req]|code|];
    [discriminate | | discriminate | contradiction].
  destruct (authenticate lib (this st) _ req (trace st)) as [[err|req'] tr];
    [discriminate |].
  destruct (httpClient (this st) (sendCount tr) _) as [err|resp].
  - destruct (Z.ltb_spec (attemptOf ctx) (maxRetries (this st))) as [Hlt|_];
      [| discriminate].
    apply IH. cbn [set_trace this]. unfold attemptOf in *. cbn. lia.
  - destruct (resolve lib request dest resp _); discriminate.
Qed.

(** [Do] returns or ends the process; the bound of the model is never hit. *)
Lemma Do_in_bounds ctx request dest st :
  fst (Do lib ctx request dest st) <> OutOfFuel.
Proof. apply Do_rec_in_bounds. lia. Qed.

(** C1. The transport fails on the first N-1 sends of a call whose context
    carries no attempt number yet (the counter is 0).
    - With [maxRetries = N] and an answer to the N-th send, [Do] returns
      what resolving that answer gives (nil for a 2xx answer and no
      destination) after exactly N sends.
    - With [maxRetries = N-2], [Do] returns the last transport error
      wrapped in [failed to do http request] after exactly N-1 sends.
    The trace of either call is [retryTrace]: every attempt authenticates
    and sends the request anew, and between two attempts lies one sleep of
    100 ms. The last part is the single retry: after a failed send with
    attempts left, [Do] sleeps and is [Do] again on the same request with
    the counter one higher. *)
Theorem Do_retries_until_answer_or_bound
    request dest pre (sent : HttpRequest Any) (N : nat) :
  (1 <= N)%nat ->
  (forall st resp,
      maxRetries (this st) = Z.of_nat N ->
      prepares lib (this st) request pre sent ->
      (forall i, (i < N - 1)%nat ->
         exists err,
           httpClient (this st) (sendCount (trace st) + i) sent = inl err) ->
      httpClient (this st) (sendCount (trace st) + (N - 1)) sent = inr resp ->
      Do lib None request dest st =
        (Returned
           (fst (resolve lib request dest resp
                   (set_trace
                      (trace st ++ retryTrace (pre ++ [EvSend sent]) N) st))),
         snd (resolve lib request dest resp
                (set_trace
                   (trace st ++ retryTrace (pre ++ [EvSend sent]) N) st)))
      /\ (200 <= StatusCode resp <= 299 -> dest = None ->
          fst (Do lib None request dest st) = Returned None)
      /\ trace (snd (Do lib None request dest st))
         = trace st ++ retryTrace (pre ++ [EvSend sent]) N
      /\ sendCount (retryTrace (pre ++ [EvSend sent]) N) = N
      /\ List.filter isSleep (retryTrace (pre ++ [EvSend sent]) N)
         = repeat (EvSleep 100) (N - 1))
  /\ (forall st lastErr,
        (2 <= N)%nat ->
        maxRetries (this st) = Z.of_nat N - 2 ->
        prepares lib (this st) request pre sent ->
        (forall i, (i < N - 2)%nat ->
           exists err,
             httpClient (this st) (sendCount (trace st) + i) sent = inl err) ->
        httpClient (this st) (sendCount (trace st) + (N - 2)) sent
        = inl lastErr ->
        Do lib None request dest st =
          (Returned (Some (wrapError "failed to do http request: " lastErr)),
           set_trace
             (trace st ++ retryTrace (pre ++ [EvSend sent]) (N - 1)) st)
        /\ sendCount (retryTrace (pre ++ [EvSend sent]) (N - 1))
           = (N - 1)%nat
        /\ List.filter isSleep (retryTrace (pre ++ [EvSend sent]) (N - 1))
           = repeat (EvSleep 100) (N - 2))
  /\ (forall st ctx err,
        prepares lib (this st) request pre sent ->
        httpClient (this st) (sendCount (trace st)) sent = inl err ->
        attemptOf ctx < maxRetries (this st) ->
        Do lib ctx request dest st =
          Do lib (Some (attemptOf ctx + 1)) request dest
            (set_trace
               (trace st ++ (pre ++ [EvSend sent]) ++ [EvSleep 100]) st)).
Proof.
  intros HN. split; [| split].
  3: { intros st ctx err Hprep Hsend Hleft.
       apply (Do_retry (this st) request pre sent Hprep ctx dest st err
                eq_refl Hsend Hleft). }
  - intros st resp Hmax Hprep Hfail Hok.
    assert (Hdo : Do lib None request dest st =
        (Returned
           (fst (resolve lib request dest resp
                   (set_trace
                      (trace st ++ retryTrace (pre ++ [EvSend sent]) N) st))),
         snd (resolve lib request dest resp
                (set_trace
                   (trace st ++ retryTrace (pre ++ [EvSend sent]) N) st)))).
    { unfold Do. rewrite Hmax. unfold attemptOf at 1. cbn [default].
      replace (S (Z.to_nat (Z.of_nat N - 0))) with ((N - 1) + 2)%nat by lia.
      rewrite (Do_rec_retries (this st) request pre sent Hprep dest
                 (N - 1) 2 None st eq_refl Hfail)
        by (unfold attemptOf; cbn; lia).
      rewrite (Do_rec_attempt (this st) request pre sent Hprep) by reflexivity.
      cbn [set_trace trace this heap].
      rewrite sendCount_app,
        (sendCount_failedRounds (this st) request pre sent Hprep), Hok.
      rewrite <- app_assoc, (failedRounds_then_round pre sent).
      replace (S (N - 1)) with N by lia.
      unfold set_trace. cbn [this heap trace].
      destruct (resolve lib request dest resp _); reflexivity. }
    split; [exact Hdo |]. split; [| split; [| split]].
    + intros H2xx ->. rewrite Hdo. cbn [fst]. unfold resolve.
      rewrite (checkForErrorResponse_success _ H2xx). reflexivity.
    + rewrite Hdo. cbn [snd]. rewrite resolve_trace. reflexivity.
    + apply (sendCount_retryTrace (this st) request pre sent Hprep).
    + apply (sleeps_retryTrace (this st) request pre sent Hprep).
  - intros st lastErr HN2 Hmax Hprep Hfail Hlast.
    split; [| split].
    + unfold Do. rewrite Hmax. unfold attemptOf at 1. cbn [default].
      replace (S (Z.to_nat (Z.of_nat N - 2 - 0))) with ((N - 2) + 1)%nat
        by lia.
      rewrite (Do_rec_retries (this st) request pre sent Hprep dest
                 (N - 2) 1 None st eq_refl Hfail)
        by (unfold attemptOf; cbn; lia).
      rewrite (Do_rec_attempt (this st) request pre sent Hprep) by reflexivity.
      cbn [set_trace trace this heap].
      rewrite sendCount_app,
        (sendCount_failedRounds (this st) request pre sent Hprep), Hlast.
      assert (Hatt : attemptOf (retried (N - 2) None) = Z.of_nat (N - 2)).
      { unfold retried, attemptOf. destruct (N - 2)%nat; cbn; lia. }
      destruct (Z.ltb_spec (attemptOf (retried (N - 2) None))
                  (maxRetries (this st))) as [Hlt|_]; [exfalso; lia |].
      rewrite <- app_assoc, (failedRounds_then_round pre sent).
      replace (S (N - 2)) with (N - 1)%nat by lia. reflexivity.
    + apply (sendCount_retryTrace (this st) request pre sent Hprep).
    + rewrite (sleeps_retryTrace (this st) request pre sent Hprep).
      f_equal. lia.
Qed.
End DoFacts.

(** ** Do, from the answer on *)

Section ResolveFacts.
Context {Any Slot Dest Heap : Type}.
Variable lib : Lib Any Slot Dest Heap.

Implicit Types (st : State Any Slot Heap) (c : client Any Slot)
  (pre : list (Event Any)) (request : Request Any Slot) (ctx : option Z).

(** *** How many errors the decoding loop keeps *)

Lemma decodeEach_length b (vv : list (target Slot Dest)) :
  forall st errs,
    (length (fst (decodeEach lib b vv st errs)) <= length errs + length vv)%nat.
Proof.
  induction vv as [|v vv IH]; intros st errs; cbn [decodeEach]; [cbn; lia |].
  destruct (GetJsoniter (this st)) as [api c'].
  destruct (jsoniter_Unmarshal lib api b v (heap st)) as [h err].
  etransitivity; [apply IH |].
  destruct err as [e|]; [destruct (errors_Is_EOF e) |];
    rewrite ?length_app; cbn; lia.
Qed.

(** If any target decodes, [Unmarshal] returns nil; here, the first one. *)
Lemma Unmarshal_first_decodes b (v : target Slot Dest) vv st :
  snd (jsoniter_Unmarshal lib (fst (GetJsoniter (this st))) b v (heap st))
  = None ->
  fst (Unmarshal lib (inr b) (v :: vv) st) = None.
Proof.
  intros Hok. unfold Unmarshal. cbn [length Nat.eqb decodeEach].
  destruct (GetJsoniter (this st)) as [api c']. cbn [fst] in Hok.
  destruct (jsoniter_Unmarshal lib api b v (heap st)) as [h err].
  cbn [snd] in Hok. subst err.
  pose proof (decodeEach_length b vv
                {| this := c'; heap := h; trace := trace st |} []) as Hlen.
  destruct (decodeEach lib b vv _ []) as [errs st'].
  cbn [fst length] in Hlen.
  destruct (Nat.eqb_spec (length errs) (S (length vv))); [lia | reflexivity].
Qed.

Lemma find_first_nonEmpty (h : Heap) (before after : list Slot) (s : Slot) :
  Forall (fun e => slot_Error lib h e = "") before ->
  slot_Error lib h s <> "" ->
  List.find (nonEmpty lib h) (before ++ s :: after) = Some s.
Proof.
  intros Hbefore Hs. induction Hbefore as [|e before He _ IH]; cbn [app List.find].
  - unfold nonEmpty. destruct (String.eqb_spec (slot_Error lib h s) "");
      [contradiction | reflexivity].
  - unfold nonEmpty at 1. rewrite He. cbn. exact IH.
Qed.

Lemma find_all_empty (h : Heap) (slots : list Slot) :
  Forall (fun e => slot_Error lib h e = "") slots ->
  List.find (nonEmpty lib h) slots = None.
Proof.
  intros Hall. induction Hall as [|e slots He _ IH]; [reflexivity |].
  cbn [List.find]. unfold nonEmpty at 1. rewrite He. cbn. exact IH.
Qed.

Section Answered.
Variables (request : Request Any Slot) (st : State Any Slot Heap)
  (pre : list (Event Any)) (sent : HttpRequest Any) (resp : Response)
  (ctx : option Z).
Hypothesis Hprep : prepares lib (this st) request pre sent.
Hypothesis Hsend :
  httpClient (this st) (sendCount (trace st)) sent = inr resp.

Lemma Do_is_resolve dest :
  Do lib ctx request dest st =
    (Returned (fst (resolve lib request dest resp (sentState pre sent st))),
     snd (resolve lib request dest resp (sentState pre sent st))).
Proof.
  apply (Do_answered lib (this st) request pre sent Hprep ctx dest st resp
           eq_refl Hsend).
Qed.

(** C3. The status is in [200,299], the destination is not nil, the body
    decodes into the destination, and after the decoding the slot [s]
    renders a message that is not empty (and no slot declared before it
    does): [Do] returns the ErrorResponse [error in response] whose
    parent is the error struct [s]. *)
Theorem Do_error_in_success_body (d : Dest) (b : bytes)
    (before after : list Slot) (s : Slot) :
  200 <= StatusCode resp <= 299 ->
  RespBody resp = inr b ->
  ErrorStructs request = Some (before ++ s :: after) ->
  snd (jsoniter_Unmarshal lib (fst (GetJsoniter (this st))) b
         (toResponse d) (heap st)) = None ->
  Forall (fun e =>
            slot_Error lib
              (heap (snd (Unmarshal lib (inr b) (possibleStructs request d)
                            (sentState pre sent st)))) e = "") before ->
  slot_Error lib
    (heap (snd (Unmarshal lib (inr b) (possibleStructs request d)
                  (sentState pre sent st)))) s <> "" ->
  Do lib ctx request (Some d) st =
    (Returned
       (Some (errResponse
                (NewErrorResponse "error in response" (Some resp)
                   (Some (slotError s))))),
     snd (Unmarshal lib (inr b) (possibleStructs request d)
            (sentState pre sent st))).
Proof.
  intros H2xx Hbody Hslots Hdest Hbefore Hs.
  rewrite Do_is_resolve. unfold resolve.
  rewrite (checkForErrorResponse_success resp H2xx), Hbody.
  fold (possibleStructs request d).
  pose proof (Unmarshal_first_decodes b (toResponse d)
                (List.map toErrorPtr (default [] (ErrorStructs request)))
                (sentState pre sent st) Hdest) as Hnil.
  fold (possibleStructs request d) in Hnil.
  destruct (Unmarshal lib (inr b) (possibleStructs request d)
              (sentState pre sent st)) as [err st'].
  cbn [fst snd] in *. subst err. rewrite Hslots.
  change (default [] (Some (before ++ s :: after))) with (before ++ s :: after).
  rewrite (find_first_nonEmpty _ _ _ _ Hbefore Hs). reflexivity.
Qed.

(** C5. The status is outside [200,299] and decoding the body for the
    declared error structs fails: [Do] returns the ErrorResponse whose
    message is the status line and whose parent is nil; the decode error
    is dropped. *)
Theorem Do_status_error_when_decoding_fails dest (err : error Slot) :
  ~ (200 <= StatusCode resp <= 299) ->
  fst (Unmarshal lib (RespBody resp)
         [toErrorSlice (default [] (ErrorStructs request))]
         (sentState pre sent st)) = Some err ->
  Do lib ctx request dest st =
    (Returned
       (Some (errResponse (NewErrorResponse (Status resp) (Some resp) None))),
     snd (Unmarshal lib (RespBody resp)
            [toErrorSlice (default [] (ErrorStructs request))]
            (sentState pre sent st))).
Proof.
  intros Hout Hfail. rewrite Do_is_resolve. unfold resolve.
  rewrite (checkForErrorResponse_failure resp Hout).
  destruct (Unmarshal lib (RespBody resp)
              [toErrorSlice (default [] (ErrorStructs request))]
              (sentState pre sent st)) as [e st'].
  cbn [fst snd] in *. subst e. reflexivity.
Qed.

End Answered.
End ResolveFacts.

(** ** Do, when the request opts out of authentication *)

Section SkipAuthFacts.
Context {Any Slot Dest Heap : Type}.
Variable lib : Lib Any Slot Dest Heap.

Lemma getHttpRequest_no_header (request : Request Any Slot) (base : URL)
    (req : HttpRequest Any) :
  getHttpRequest lib request base = Returned (inr req) -> Header req = [].
Proof.
  unfold getHttpRequest.
  destruct (url_Parse lib (PathTemplate request)) as [err|parsed];
    [discriminate |].
  match goal with
  | |- context [match ?rendered with Returned _ => _ | _ => _ end] =>
      destruct rendered as [[err|u]|code|]; try discriminate
  end.
  destruct (getRequestBody lib request) as [err|body]; [discriminate |].
  unfold http_NewRequest. cbv zeta.
  destruct (http_NewRequest_check lib _ (URL_String lib u));
    [discriminate |].
  intros [= <-]. reflexivity.
Qed.

Lemma setOtherHeaders_plain (c : client Any Slot) (req : HttpRequest Any) :
  Header req = [] -> Header (setOtherHeaders c req) = plainHeaders c.
Proof. intros Hreq. cbn. rewrite Hreq. reflexivity. Qed.

Lemma authenticate_skip (c : client Any Slot) (req : HttpRequest Any)
    (tr : list (Event Any)) :
  authenticate lib c true req tr = (inr req, tr).
Proof. reflexivity. Qed.

Lemma Do_rec_skipAuth (request : Request Any Slot) (dest : option Dest) :
  SkipAuth request = Some true ->
  forall (fuel : nat) (ctx : option Z) (st : State Any Slot Heap),
  exists evs,
    trace (snd (Do_rec lib fuel ctx request dest st)) = trace st ++ evs
    /\ Forall (uncredentialed (this st)) evs.
Proof.
  intros Hskip. induction fuel as [|fuel IH]; intros ctx st; cbn [Do_rec].
  - exists []. rewrite app_nil_r. split; [reflexivity | constructor].
  - destruct (baseURL (this st)) as [base|];
      [| exists []; rewrite app_nil_r; split; [reflexivity | constructor]].
    destruct (getHttpRequest lib request base) as [[err|req]|code|] eqn:Hbuild;
      try (exists []; rewrite app_nil_r; split; [reflexivity | constructor]).
    rewrite Hskip. change (default false (Some true)) with true.
    rewrite authenticate_skip.
    pose proof (setOtherHeaders_plain (this st) req
                  (getHttpRequest_no_header _ _ _ Hbuild)) as Hplain.
    destruct (httpClient (this st) (sendCount (trace st))
                (setOtherHeaders (this st) req)) as [err|resp].
    + destruct (attemptOf ctx <? maxRetries (this st)).
      * destruct (IH (Some (attemptOf ctx + 1))
                    (set_trace
                       ((trace st ++ [EvSend (setOtherHeaders (this st) req)])
                        ++ [EvSleep 100]) st)) as (evs & Htr & Hall).
        exists ([EvSend (setOtherHeaders (this st) req); EvSleep 100] ++ evs).
        split.
        -- rewrite Htr. cbn [set_trace trace]. rewrite <- !app_assoc.
           reflexivity.
        -- apply Forall_app. split; [| exact Hall].
           repeat constructor. exact Hplain.
      * exists [EvSend (setOtherHeaders (this st) req)].
        split; [reflexivity |]. repeat constructor. exact Hplain.
    + pose proof (resolve_trace lib request dest resp
                    (set_trace
                       (trace st ++ [EvSend (setOtherHeaders (this st) req)])
                       st)) as Htr.
      destruct (resolve lib request dest resp _) as [err st'].
      exists [EvSend (setOtherHeaders (this st) req)].
      split; [exact Htr |]. repeat constructor. exact Hplain.
Qed.

(** C8. The request declares an auth preference and [SkipAuth()] is true:
    whatever the auth type of the client, every request the call hands to
    the transport has the three headers [Do] always sets and no other (no
    basic-auth header, no api-key header), and the preflight function is
    never called; the only other events are the sleeps between retries. *)
Theorem Do_skipAuth_attaches_no_credentials
    (request : Request Any Slot) (dest : option Dest) (ctx : option Z)
    (st : State Any Slot Heap) :
  SkipAuth request = Some true ->
  exists evs,
    trace (snd (Do lib ctx request dest st)) = trace st ++ evs
    /\ Forall (uncredentialed (this st)) evs.
Proof. intros Hskip. apply Do_rec_skipAuth, Hskip. Qed.
End SkipAuthFacts.

(** ** The claims at concrete inputs *)

Lemma sample_prepares transport n slots :
  prepares sampleLib (WithMaxRetries n (sampleClient transport))
    (sampleRequest slots None) [] sampleSent.
Proof.
  exists sampleBase,
    {| ReqMethod := "GET"; ReqURL := "https://api.example.com/v1/things";
       Header := []; ReqBody := None |},
    {| ReqMethod := "GET"; ReqURL := "https://api.example.com/v1/things";
       Header := [("X-Api-Key", "k-123")]; ReqBody := None |}.
  repeat split.
Defined.

Lemma sample_prepares_0 transport slots :
  prepares sampleLib (sampleClient transport) (sampleRequest slots None)
    [] sampleSent.
Proof. exact (sample_prepares transport 0 slots). Defined.

(** Three attempts: the transport fails twice and then answers 200. With
    [maxRetries = 3] the call succeeds after 3 sends; with [maxRetries = 1]
    it gives up after 2 sends. *)
Lemma Do_retries_until_answer_or_bound_witness :
  (fst (Do sampleLib None (sampleRequest None None) None
          (sampleState
             (WithMaxRetries 3
                (sampleClient (failThenAnswer 2 (okResponse "")))) []))
   = Returned None
   /\ trace (snd (Do sampleLib None (sampleRequest None None) None
                   (sampleState
                      (WithMaxRetries 3
                         (sampleClient (failThenAnswer 2 (okResponse "")))) [])))
      = [EvSend sampleSent; EvSleep 100; EvSend sampleSent; EvSleep 100;
         EvSend sampleSent])
  /\ Do sampleLib None (sampleRequest None None) None
       (sampleState
          (WithMaxRetries 1
             (sampleClient (failThenAnswer 2 (okResponse "")))) [])
     = (Returned (Some (wrapError "failed to do http request: " refused)),
        set_trace [EvSend sampleSent; EvSleep 100; EvSend sampleSent]
          (sampleState
             (WithMaxRetries 1
                (sampleClient (failThenAnswer 2 (okResponse "")))) []))
  /\ Do sampleLib None (sampleRequest None None) None
       (sampleState
          (WithMaxRetries 1
             (sampleClient (failThenAnswer 2 (okResponse "")))) [])
     = Do sampleLib (Some 1) (sampleRequest None None) None
         (set_trace [EvSend sampleSent; EvSleep 100]
            (sampleState
               (WithMaxRetries 1
                  (sampleClient (failThenAnswer 2 (okResponse "")))) [])).
Proof.
  destruct (Do_retries_until_answer_or_bound sampleLib
              (sampleRequest None None) None [] sampleSent 3
              (le_S 1 2 (le_S 1 1 (le_n 1)))) as (Hanswer & Hbound & Hretry).
  split; [| split].
  - destruct (Hanswer
                (sampleState
                   (WithMaxRetries 3
                      (sampleClient (failThenAnswer 2 (okResponse "")))) [])
                (okResponse "")) as (_ & Hnil & Htrace & _).
    + reflexivity.
    + apply sample_prepares.
    + intros i Hi. exists refused.
      destruct i as [|[|i]]; [reflexivity | reflexivity | lia].
    + reflexivity.
    + split; [apply Hnil; [cbn; lia | reflexivity] | exact Htrace].
  - destruct (Hbound
                (sampleState
                   (WithMaxRetries 1
                      (sampleClient (failThenAnswer 2 (okResponse "")))) [])
                refused) as (Hdo & _).
    + lia.
    + reflexivity.
    + apply sample_prepares.
    + intros i Hi. exists refused.
      destruct i as [|i]; [reflexivity | lia].
    + reflexivity.
    + exact Hdo.
  - apply (Hretry
             (sampleState
                (WithMaxRetries 1
                   (sampleClient (failThenAnswer 2 (okResponse "")))) [])
             None refused).
    + apply sample_prepares.
    + reflexivity.
    + reflexivity.
Defined.

(** Status 200 and the body that carries the error [quota exceeded]: the
    destination decodes, the slot 0 then renders that message. *)
Lemma Do_error_in_success_body_witness :
  fst (Do sampleLib None (sampleRequest (Some [0%nat]) None) (Some tt)
         (sampleState
            (sampleClient (failThenAnswer 0 (okResponse quotaBody))) [""]))
  = Returned
      (Some (errResponse
               (NewErrorResponse "error in response"
                  (Some (okResponse quotaBody)) (Some (slotError 0%nat))))).
Proof.
  rewrite (Do_error_in_success_body sampleLib
             (sampleRequest (Some [0%nat]) None)
             (sampleState
                (sampleClient (failThenAnswer 0 (okResponse quotaBody))) [""])
             [] sampleSent (okResponse quotaBody) None
             (sample_prepares_0 _ _) eq_refl tt
             (String.list_byte_of_string quotaBody) [] [] 0%nat).
  - reflexivity.
  - cbn. lia.
  - reflexivity.
  - reflexivity.
  - reflexivity.
  - constructor.
  - vm_compute. discriminate.
Defined.

(** Status 500 and a body that is no JSON document. *)
Lemma Do_status_error_when_decoding_fails_witness :
  fst (Do sampleLib None (sampleRequest (Some [0%nat]) None) (Some tt)
         (sampleState
            (sampleClient (failThenAnswer 0 (failResponse "<html>"))) [""]))
  = Returned
      (Some (errResponse
               (NewErrorResponse "500 Internal Server Error"
                  (Some (failResponse "<html>")) None))).
Proof.
  rewrite (Do_status_error_when_decoding_fails sampleLib
             (sampleRequest (Some [0%nat]) None)
             (sampleState
                (sampleClient (failThenAnswer 0 (failResponse "<html>"))) [""])
             [] sampleSent (failResponse "<html>") None
             (sample_prepares_0 _ _) eq_refl (Some tt)
             (errorString "ReadObject: expect { or n")).
  - reflexivity.
  - cbn. lia.
  - vm_compute. reflexivity.
Defined.

(** C4, at status 500 with the body that carries [quota exceeded] and one
    declared error struct. Decoding that body into the struct makes it render
    [quota exceeded]; but the error path hands the decoder the slice of
    structs as one value, the struct keeps rendering nothing, and [Do]
    returns the status error with a nil parent: its unwrap chain does not
    reach the struct. *)
Theorem Do_error_path_does_not_reach_error_struct :
  slot_Error sampleLib
    (fst (jsoniter_Unmarshal sampleLib ConfigDefault
            (String.list_byte_of_string quotaBody) (toErrorPtr 0%nat) [""]))
    0%nat = "quota exceeded"
  /\ fst (Do sampleLib None (sampleRequest (Some [0%nat]) None) (Some tt)
            (sampleState
               (sampleClient (failThenAnswer 0 (failResponse quotaBody))) [""]))
     = Returned
         (Some (errResponse
                  (NewErrorResponse "500 Internal Server Error"
                     (Some (failResponse quotaBody)) None)))
  /\ heap (snd (Do sampleLib None (sampleRequest (Some [0%nat]) None) (Some tt)
                  (sampleState
                     (sampleClient (failThenAnswer 0 (failResponse quotaBody)))
                     [""])))
     = [""]
  /\ reaches Nat.eqb 0%nat
       (errResponse
          (NewErrorResponse "500 Internal Server Error"
             (Some (failResponse quotaBody)) None)) = false.
Proof. repeat split; vm_compute; reflexivity. Qed.

(** A basic-auth, an api-key and a preflight client, and a request that
    skips authentication. *)
Lemma Do_skipAuth_attaches_no_credentials_witness :
  exists evs,
    trace (snd (Do sampleLib None (sampleRequest None (Some true)) None
                  (sampleState
                     (sampleClient (failThenAnswer 1 (okResponse ""))) [])))
    = [] ++ evs
    /\ Forall (uncredentialed
                 (sampleClient (failThenAnswer 1 (okResponse "")))) evs.
Proof.
  apply (Do_skipAuth_attaches_no_credentials sampleLib
           (sampleRequest None (Some true)) None None
           (sampleState (sampleClient (failThenAnswer 1 (okResponse ""))) [])).
  reflexivity.
Defined.

(** ** More about Do: what every call keeps *)

Section DoInvariants.
Context {Any Slot Dest Heap : Type}.
Variable lib : Lib Any Slot Dest Heap.

Implicit Types (st : State Any Slot Heap) (c : client Any Slot)
  (request : Request Any Slot) (dest : option Dest) (ctx : option Z).

Lemma authenticate_shape c skip (req : HttpRequest Any) :
  snd (authenticate lib c skip req []) = []
  \/ snd (authenticate lib c skip req []) = [EvPreflight req].
Proof.
  unfold authenticate.
  destruct skip; [auto |].
  destruct (authType c =? authTypeBasic); [auto |].
  destruct (authType c =? authTypeApiKey); [auto |].
  destruct (authType c =? authTypePreflight); [| auto].
  destruct (preflightAuthFunc c); auto.
Qed.

Lemma sleepCount_app (tr tr' : list (Event Any)) :
  sleepCount (tr ++ tr') = (sleepCount tr + sleepCount tr')%nat.
Proof. unfold sleepCount. rewrite List.filter_app, length_app. reflexivity. Qed.

(** Every event of a call is a preflight call, a sleep of 100 ms or a send
    that carries the three headers. *)
Lemma Do_rec_events request dest :
  forall (fuel : nat) ctx st,
  exists evs,
    trace (snd (Do_rec lib fuel ctx request dest st)) = trace st ++ evs
    /\ Forall (wellFormedEvent (this st)) evs.
Proof.
  induction fuel as [|fuel IH]; intros ctx st; cbn [Do_rec].
  - exists []. rewrite app_nil_r. split; [reflexivity | constructor].
  - destruct (baseURL (this st)) as [base|];
      [| exists []; rewrite app_nil_r; split; [reflexivity | constructor]].
    destruct (getHttpRequest lib request base) as [[err|req]|code|];
      try (exists []; rewrite app_nil_r; split; [reflexivity | constructor]).
    rewrite authenticate_events.
    assert (Hpre : Forall (wellFormedEvent (this st))
                     (snd (authenticate lib (this st)
                             (default false (SkipAuth request)) req []))).
    { destruct (authenticate_shape (this st)
                  (default false (SkipAuth request)) req) as [-> | ->];
        repeat constructor. }
    set (pre := snd (authenticate lib (this st)
                       (default false (SkipAuth request)) req [])) in *.
    destruct (fst (authenticate lib (this st)
                     (default false (SkipAuth request)) req []))
      as [err|req'].
    { exists pre. split; [reflexivity | exact Hpre]. }
    assert (Hsent : wellFormedEvent (this st)
                      (EvSend (setOtherHeaders (this st) req'))).
    { exists (Header req'). cbn. rewrite <- !app_assoc. reflexivity. }
    destruct (httpClient (this st) (sendCount (trace st ++ pre))
                (setOtherHeaders (this st) req')) as [err|resp].
    + destruct (attemptOf ctx <? maxRetries (this st)).
      * destruct (IH (Some (attemptOf ctx + 1))
                    (set_trace
                       (((trace st ++ pre)
                         ++ [EvSend (setOtherHeaders (this st) req')])
                        ++ [EvSleep 100]) st)) as (evs & Htr & Hall).
        exists (pre ++ [EvSend (setOtherHeaders (this st) req'); EvSleep 100]
                ++ evs).
        split.
        -- rewrite Htr. cbn [set_trace trace]. rewrite <- !app_assoc.
           reflexivity.
        -- apply Forall_app. split; [exact Hpre |].
           apply Forall_app. split; [| exact Hall].
           repeat constructor. exact Hsent.
      * exists (pre ++ [EvSend (setOtherHeaders (this st) req')]).
        split; [cbn [set_trace trace snd]; rewrite <- app_assoc; reflexivity |].
        apply Forall_app. split; [exact Hpre |]. repeat constructor.
        exact Hsent.
    + pose proof (resolve_trace lib request dest resp
                    (set_trace
                       ((trace st ++ pre)
                        ++ [EvSend (setOtherHeaders (this st) req')]) st))
        as Htr.
      destruct (resolve lib request dest resp _) as [err st'].
      exists (pre ++ [EvSend (setOtherHeaders (this st) req')]).
      split; [cbn [snd] in *; rewrite Htr; cbn [set_trace trace];
              rewrite <- app_assoc; reflexivity |].
      apply Forall_app. split; [exact Hpre |]. repeat constructor.
      exact Hsent.
Qed.

(** X5. Whatever the auth type, the preflight function and the transport
    do, every request a call of [Do] hands to the transport ends with the
    headers Content-Type, Accept and User-Agent of the client, in this
    order, and every sleep of the call lasts 100 ms. *)
Theorem Do_always_sets_the_three_headers ctx request dest st :
  exists evs,
    trace (snd (Do lib ctx request dest st)) = trace st ++ evs
    /\ Forall (wellFormedEvent (this st)) evs.
Proof. apply Do_rec_events. Qed.

Lemma Do_rec_counts request dest :
  forall (fuel : nat) ctx st,
  exists evs,
    trace (snd (Do_rec lib fuel ctx request dest st)) = trace st ++ evs
    /\ (sendCount evs
        <= S (Z.to_nat (maxRetries (this st) - attemptOf ctx)))%nat
    /\ (sleepCount evs
        <= Z.to_nat (maxRetries (this st) - attemptOf ctx))%nat
    /\ (sleepCount evs <= sendCount evs <= S (sleepCount evs))%nat.
Proof.
  induction fuel as [|fuel IH]; intros ctx st; cbn [Do_rec].
  - exists []. rewrite app_nil_r. cbn. repeat split; lia.
  - destruct (baseURL (this st)) as [base|];
      [| exists []; rewrite app_nil_r; cbn; repeat split; lia].
    destruct (getHttpRequest lib request base) as [[err|req]|code|];
      try (exists []; rewrite app_nil_r; cbn; repeat split; lia).
    rewrite authenticate_events.
    assert (Hpre : sendCount (snd (authenticate lib (this st)
                      (default false (SkipAuth request)) req [])) = 0%nat
                   /\ sleepCount (snd (authenticate lib (this st)
                      (default false (SkipAuth request)) req [])) = 0%nat).
    { destruct (authenticate_shape (this st)
                  (default false (SkipAuth request)) req) as [-> | ->];
        split; reflexivity. }
    set (pre := snd (authenticate lib (this st)
                       (default false (SkipAuth request)) req [])) in *.
    destruct Hpre as [Hsends Hsleeps].
    destruct (fst (authenticate lib (this st)
                     (default false (SkipAuth request)) req []))
      as [err|req'].
    { exists pre. split; [reflexivity |]. rewrite Hsends, Hsleeps.
      repeat split; lia. }
    set (sent := setOtherHeaders (this st) req').
    destruct (httpClient (this st) (sendCount (trace st ++ pre)) sent)
      as [err|resp].
    + destruct (Z.ltb_spec (attemptOf ctx) (maxRetries (this st)))
        as [Hlt|Hge].
      * destruct (IH (Some (attemptOf ctx + 1))
                    (set_trace
                       (((trace st ++ pre) ++ [EvSend sent])
                        ++ [EvSleep 100]) st))
          as (evs & Htr & Hs & Hz & Hlo & Hhi).
        exists (pre ++ [EvSend sent; EvSleep 100] ++ evs).
        split.
        { rewrite Htr. cbn [set_trace trace]. rewrite <- !app_assoc.
          reflexivity. }
        cbn [set_trace this] in Hs, Hz.
        assert (Hatt : attemptOf (Some (attemptOf ctx + 1))
                       = attemptOf ctx + 1) by reflexivity.
        rewrite Hatt in Hs, Hz.
        rewrite !sendCount_app, !sleepCount_app, Hsends, Hsleeps.
        change (sendCount [EvSend sent; EvSleep 100]) with 1%nat.
        change (sleepCount [EvSend sent; EvSleep 100]) with 1%nat.
        repeat split; lia.
      * exists (pre ++ [EvSend sent]).
        split; [cbn [set_trace trace snd]; rewrite <- app_assoc; reflexivity |].
        rewrite !sendCount_app, !sleepCount_app, Hsends, Hsleeps.
        cbn. repeat split; lia.
    + pose proof (resolve_trace lib request dest resp
                    (set_trace ((trace st ++ pre) ++ [EvSend sent]) st))
        as Htr.
      destruct (resolve lib request dest resp _) as [err st'].
      exists (pre ++ [EvSend sent]).
      split; [cbn [snd] in *; rewrite Htr; cbn [set_trace trace];
              rewrite <- app_assoc; reflexivity |].
      rewrite !sendCount_app, !sleepCount_app, Hsends, Hsleeps.
      cbn. repeat split; lia.
Qed.

(** X6. Whatever the transport does, a call of [Do] sends at most
    1 + max(0, maxRetries - attempt) requests and sleeps at most
    max(0, maxRetries - attempt) times; it never sleeps more often than it
    sends, and sends at most once more than it sleeps. *)
Theorem Do_bounds_sends_and_sleeps ctx request dest st :
  exists evs,
    trace (snd (Do lib ctx request dest st)) = trace st ++ evs
    /\ (sendCount evs
        <= S (Z.to_nat (maxRetries (this st) - attemptOf ctx)))%nat
    /\ (sleepCount evs
        <= Z.to_nat (maxRetries (this st) - attemptOf ctx))%nat
    /\ (sleepCount evs <= sendCount evs <= S (sleepCount evs))%nat.
Proof. apply Do_rec_counts. Qed.
End DoInvariants.

(** ** More about Do: the client, the errors before the send, the preflight *)

Section DoBeforeTheSend.
Context {Any Slot Dest Heap : Type}.
Variable lib : Lib Any Slot Dest Heap.

Implicit Types (st : State Any Slot Heap) (c : client Any Slot)
  (request : Request Any Slot) (dest : option Dest) (ctx : option Z).

Lemma GetJsoniter_again c :
  GetJsoniter (snd (GetJsoniter c)) = GetJsoniter c.
Proof.
  unfold GetJsoniter. destruct (jsoniterInstance c) as [api|] eqn:Hc.
  - cbn [snd]. rewrite Hc. reflexivity.
  - reflexivity.
Qed.

Lemma decodeEach_this b (vv : list (target Slot Dest)) :
  forall st errs,
    this (snd (decodeEach lib b vv st errs)) =
      match vv with
      | [] => this st
      | _ :: _ => snd (GetJsoniter (this st))
      end.
Proof.
  induction vv as [|v vv IH]; intros st errs; cbn [decodeEach]; [reflexivity |].
  pose proof (GetJsoniter_again (this st)) as Hagain.
  destruct (GetJsoniter (this st)) as [api c'] eqn:Hget. cbn [snd] in *.
  destruct (jsoniter_Unmarshal lib api b v (heap st)) as [h err].
  rewrite IH. cbn [this]. destruct vv; [reflexivity |].
  rewrite Hagain. reflexivity.
Qed.

Lemma Unmarshal_this r (vv : list (target Slot Dest)) st :
  this (snd (Unmarshal lib r vv st)) = this st
  \/ this (snd (Unmarshal lib r vv st)) = snd (GetJsoniter (this st)).
Proof.
  unfold Unmarshal. destruct (length vv =? 0)%nat; [auto |].
  destruct r as [e|b]; [auto |].
  pose proof (decodeEach_this b vv st []) as Hthis.
  destruct (decodeEach lib b vv st []) as [errs st']. cbn [snd] in Hthis.
  destruct (length errs =? length vv)%nat; cbn [snd]; rewrite Hthis;
    destruct vv; auto.
Qed.

Lemma resolve_this request dest resp st :
  this (snd (resolve lib request dest resp st)) = this st
  \/ this (snd (resolve lib request dest resp st)) = snd (GetJsoniter (this st)).
Proof.
  unfold resolve.
  destruct (checkForErrorResponse resp) as [errResp|].
  - pose proof (Unmarshal_this (RespBody resp)
                  [toErrorSlice (default [] (ErrorStructs request))] st) as H.
    destruct (Unmarshal lib _ _ st) as [[err|] st']; exact H.
  - destruct dest as [d|]; [| auto].
    pose proof (Unmarshal_this (RespBody resp)
                  (toResponse d
                   :: List.map toErrorPtr (default [] (ErrorStructs request)))
                  st) as H.
    destruct (Unmarshal lib _ _ st) as [[err|] st']; [exact H |].
    destruct (List.find _ _); exact H.
Qed.

Lemma Do_rec_this request dest :
  forall (fuel : nat) ctx st,
    this (snd (Do_rec lib fuel ctx request dest st)) = this st
    \/ this (snd (Do_rec lib fuel ctx request dest st))
       = snd (GetJsoniter (this st)).
Proof.
  induction fuel as [|fuel IH]; intros ctx st; cbn [Do_rec]; [auto |].
  destruct (baseURL (this st)) as [base|]; [| auto].
  destruct (getHttpRequest lib request base) as [[err|req]|code|]; auto.
  destruct (authenticate lib (this st) _ req (trace st)) as [[err|req'] tr];
    [auto |].
  destruct (httpClient (this st) (sendCount tr) _) as [err|resp].
  - destruct (attemptOf ctx <? maxRetries (this st)); [| auto].
    apply (IH _ (set_trace _ st)).
  - pose proof (resolve_this request dest resp
                  (set_trace
                     (tr ++ [EvSend (setOtherHeaders (this st) req')]) st))
      as H.
    destruct (resolve lib request dest resp _) as [err st']. exact H.
Qed.

(** X14. A call of [Do] keeps the configuration of the client: the base
    URL, the auth type and the credentials, the preflight function, the retry
    bound, the user agent, media type and charset, and the flags are the same
    after the call. Of the fields of the struct only the codec cache can
    differ, and only by being filled, when it was empty, with the codec of
    the client's [disallowUnknownFields]. (The cookie jar belongs to the
    [http.Client] and is no part of this statement.) *)
Theorem Do_changes_only_the_codec_cache ctx request dest st :
  baseURL (this (snd (Do lib ctx request dest st))) = baseURL (this st)
  /\ authType (this (snd (Do lib ctx request dest st))) = authType (this st)
  /\ userName (this (snd (Do lib ctx request dest st))) = userName (this st)
  /\ password (this (snd (Do lib ctx request dest st))) = password (this st)
  /\ keyHeader (this (snd (Do lib ctx request dest st))) = keyHeader (this st)
  /\ keyValue (this (snd (Do lib ctx request dest st))) = keyValue (this st)
  /\ preflightAuthFunc (this (snd (Do lib ctx request dest st)))
     = preflightAuthFunc (this st)
  /\ maxRetries (this (snd (Do lib ctx request dest st)))
     = maxRetries (this st)
  /\ userAgent (this (snd (Do lib ctx request dest st))) = userAgent (this st)
  /\ mediaType (this (snd (Do lib ctx request dest st))) = mediaType (this st)
  /\ charset (this (snd (Do lib ctx request dest st))) = charset (this st)
  /\ disallowUnknownFields (this (snd (Do lib ctx request dest st)))
     = disallowUnknownFields (this st)
  /\ useCookies (this (snd (Do lib ctx request dest st)))
     = useCookies (this st)
  /\ debug (this (snd (Do lib ctx request dest st))) = debug (this st)
  /\ (jsoniterInstance (this (snd (Do lib ctx request dest st)))
      = jsoniterInstance (this st)
      \/ (jsoniterInstance (this st) = None
          /\ jsoniterInstance (this (snd (Do lib ctx request dest st)))
             = Some {| EscapeHTML := true; SortMapKeys := true;
                       ValidateJsonRawMessage := true;
                       DisallowUnknownFields :=
                         disallowUnknownFields (this st) |})).
Proof.
  destruct (Do_rec_this request dest
              (S (Z.to_nat (maxRetries (this st) - attemptOf ctx))) ctx st)
    as [H|H]; unfold Do; rewrite H.
  - repeat split. left. reflexivity.
  - unfold GetJsoniter.
    destruct (jsoniterInstance (this st)) as [api|] eqn:Hcache.
    + cbn [snd]. rewrite Hcache. repeat split. left. reflexivity.
    + cbn. repeat split. right. split; reflexivity.
Qed.

(** *** Errors before the send *)

Lemma getHttpRequest_errors_are_wrapped request (base : URL) (err : error Slot) :
  getHttpRequest lib request base = Returned (inl err) ->
  exists prefix inner,
    err = wrapError prefix inner
    /\ In prefix ["invalid path template: ";
                  "failed to parse path template: ";
                  "failed to encode request body: ";
                  "failed to create new http request: "].
Proof.
  unfold getHttpRequest.
  destruct (url_Parse lib (PathTemplate request)) as [e|parsed].
  { intros [= <-]. eexists _, _. split; [reflexivity | cbn; auto]. }
  assert (Hbody : forall u,
    match getRequestBody lib request with
    | inl e => Returned (inl e)
    | inr body =>
        match http_NewRequest lib (Method request) (URL_String lib u) body with
        | inl e =>
            Returned (inl (wrapError "failed to create new http request: " e))
        | inr req => Returned (inr req)
        end
    end = Returned (inl err) ->
    exists prefix inner,
      err = wrapError prefix inner
      /\ In prefix ["invalid path template: ";
                    "failed to parse path template: ";
                    "failed to encode request body: ";
                    "failed to create new http request: "]).
  { intros u. unfold getRequestBody.
    destruct (Body request) as [[r|b|s|v]|];
      try (destruct (http_NewRequest lib _ _ _); [| discriminate];
           intros [= <-]; eexists _, _; split; [reflexivity | cbn; auto]).
    destruct (jsoniter_Encode lib ConfigDefault v).
    - intros [= <-]. eexists _, _. split; [reflexivity | cbn; auto].
    - destruct (http_NewRequest lib _ _ _); [| discriminate].
      intros [= <-]. eexists _, _. split; [reflexivity | cbn; auto]. }
  destruct (0 <? size (getTaggedFields lib request "path"))%nat.
  - destruct (template_Parse lib _) as [e|].
    { intros [= <-]. eexists _, _. split; [reflexivity | cbn; auto]. }
    destruct (template_Execute lib _ _); [discriminate |]. apply Hbody.
  - apply Hbody.
Qed.

(** X2. An error while the request is built (the path template does not
    parse as a URL or as a template, the body does not encode, or
    [http.NewRequestWithContext] refuses) is a wrapped error with one of four
    fixed prefixes, and [Do] returns exactly it at once: the preflight
    function is not called, nothing is sent and nothing is slept or retried,
    whatever [maxRetries] is, and the caller's memory is not touched. *)
Theorem Do_returns_build_errors_at_once ctx request dest st
    (base : URL) (err : error Slot) :
  baseURL (this st) = Some base ->
  getHttpRequest lib request base = Returned (inl err) ->
  fst (Do lib ctx request dest st) = Returned (Some err)
  /\ trace (snd (Do lib ctx request dest st)) = trace st
  /\ heap (snd (Do lib ctx request dest st)) = heap st
  /\ exists prefix inner,
       err = wrapError prefix inner
       /\ In prefix ["invalid path template: ";
                     "failed to parse path template: ";
                     "failed to encode request body: ";
                     "failed to create new http request: "].
Proof.
  intros Hbase Hbuild.
  assert (Hdo : Do lib ctx request dest st = (Returned (Some err), st)).
  { unfold Do. cbn [Do_rec]. rewrite Hbase, Hbuild. reflexivity. }
  rewrite Hdo. repeat split.
  apply (getHttpRequest_errors_are_wrapped _ _ _ Hbuild).
Qed.

(** *** The preflight function *)

(** X3. The client authenticates by preflight and the preflight function
    fails on the built request: [Do] returns that very error after the one
    preflight call; nothing is sent and nothing is retried, whatever
    [maxRetries] and the attempt number are. *)
Theorem Do_preflight_failure_aborts ctx request dest st (base : URL)
    (req0 : HttpRequest Any)
    (f : HttpRequest Any -> error Slot + HttpRequest Any) (err : error Slot) :
  baseURL (this st) = Some base ->
  getHttpRequest lib request base = Returned (inr req0) ->
  default false (SkipAuth request) = false ->
  authType (this st) = authTypePreflight ->
  preflightAuthFunc (this st) = Some f ->
  f req0 = inl err ->
  Do lib ctx request dest st =
    (Returned (Some err), set_trace (trace st ++ [EvPreflight req0]) st)
  /\ sendCount (trace (snd (Do lib ctx request dest st)))
     = sendCount (trace st).
Proof.
  intros Hbase Hbuild Hskip Hauth Hf Herr.
  assert (Hdo : Do lib ctx request dest st =
    (Returned (Some err), set_trace (trace st ++ [EvPreflight req0]) st)).
  { unfold Do. cbn [Do_rec]. rewrite Hbase, Hbuild, Hskip.
    unfold authenticate. rewrite Hauth, Hf, Herr. reflexivity. }
  split; [exact Hdo |].
  rewrite Hdo. cbn [snd set_trace trace]. rewrite sendCount_app. cbn. lia.
Qed.

Lemma preflight_prepares request st (base : URL) (req0 req1 : HttpRequest Any)
    (f : HttpRequest Any -> error Slot + HttpRequest Any) :
  baseURL (this st) = Some base ->
  getHttpRequest lib request base = Returned (inr req0) ->
  default false (SkipAuth request) = false ->
  authType (this st) = authTypePreflight ->
  preflightAuthFunc (this st) = Some f ->
  f req0 = inr req1 ->
  prepares lib (this st) request [EvPreflight req0]
    (setOtherHeaders (this st) req1).
Proof.
  intros Hbase Hbuild Hskip Hauth Hf Hok.
  exists base, req0, req1. repeat split; try assumption.
  rewrite Hskip. unfold authenticate. rewrite Hauth, Hf, Hok. reflexivity.
Qed.

(** X4. The client authenticates by preflight and the preflight function
    returns the request [req1] for the built request: the transport gets
    [req1] (its method, URL, body and headers as the function left them)
    followed by the three headers of [Do], and the function was called once,
    before the send. *)
Theorem Do_sends_what_preflight_returns ctx request dest st (base : URL)
    (req0 req1 : HttpRequest Any)
    (f : HttpRequest Any -> error Slot + HttpRequest Any) (resp : Response) :
  baseURL (this st) = Some base ->
  getHttpRequest lib request base = Returned (inr req0) ->
  default false (SkipAuth request) = false ->
  authType (this st) = authTypePreflight ->
  preflightAuthFunc (this st) = Some f ->
  f req0 = inr req1 ->
  httpClient (this st) (sendCount (trace st))
    (setOtherHeaders (this st) req1) = inr resp ->
  trace (snd (Do lib ctx request dest st))
  = trace st ++ [EvPreflight req0; EvSend (setOtherHeaders (this st) req1)]
  /\ Header (setOtherHeaders (this st) req1)
     = Header req1 ++ plainHeaders (this st)
  /\ ReqMethod (setOtherHeaders (this st) req1) = ReqMethod req1
  /\ ReqURL (setOtherHeaders (this st) req1) = ReqURL req1
  /\ ReqBody (setOtherHeaders (this st) req1) = ReqBody req1.
Proof.
  intros Hbase Hbuild Hskip Hauth Hf Hok Hsend.
  pose proof (preflight_prepares request st base req0 req1 f
                Hbase Hbuild Hskip Hauth Hf Hok) as Hprep.
  split.
  - rewrite (Do_is_resolve lib request st _ _ resp ctx Hprep Hsend dest).
    cbn [snd]. rewrite resolve_trace. reflexivity.
  - repeat split. cbn. rewrite <- !app_assoc. reflexivity.
Qed.
End DoBeforeTheSend.

(** ** More about Do: the answer *)

Section AnswerFacts.
Context {Any Slot Dest Heap : Type}.
Variable lib : Lib Any Slot Dest Heap.

Implicit Types (st : State Any Slot Heap) (c : client Any Slot)
  (request : Request Any Slot) (ctx : option Z).

(** *** Unmarshal *)

Lemma decodeEach_one_decodes b (t : target Slot Dest) :
  (forall cfg h,
      match snd (jsoniter_Unmarshal lib cfg b t h) with
      | Some e => errors_Is_EOF e = true
      | None => True
      end) ->
  forall vv st errs,
    In t vv ->
    (length (fst (decodeEach lib b vv st errs)) < length errs + length vv)%nat.
Proof.
  intros Hok. induction vv as [|v vv IH]; intros st errs Hin; [destruct Hin |].
  cbn [decodeEach].
  destruct (GetJsoniter (this st)) as [api c'].
  destruct Hin as [-> | Hin].
  - specialize (Hok api (heap st)).
    destruct (jsoniter_Unmarshal lib api b t (heap st)) as [h err].
    cbn [snd] in Hok.
    assert (Hsame : match err with
                    | Some e => if errors_Is_EOF e then errs else errs ++ [e]
                    | None => errs
                    end = errs).
    { destruct err as [e|]; [rewrite Hok |]; reflexivity. }
    rewrite Hsame.
    pose proof (decodeEach_length lib b vv
                  {| this := c'; heap := h; trace := trace st |} errs).
    cbn [length]. lia.
  - destruct (jsoniter_Unmarshal lib api b v (heap st)) as [h err].
    specialize (IH {| this := c'; heap := h; trace := trace st |}
                  (match err with
                   | Some e => if errors_Is_EOF e then errs else errs ++ [e]
                   | None => errs
                   end) Hin).
    assert (Hgrow : (length (match err with
                             | Some e =>
                                 if errors_Is_EOF e then errs else errs ++ [e]
                             | None => errs
                             end) <= S (length errs))%nat).
    { destruct err as [e|]; [destruct (errors_Is_EOF e) |];
        rewrite ?length_app; cbn; lia. }
    cbn [length]. lia.
Qed.

(** X13. [Unmarshal] returns nil as soon as one of its targets, wherever it
    stands in the list, decodes the body or meets the end of the input; the
    errors of the other targets are dropped. With no target at all it
    returns nil without reading the body. *)
Theorem Unmarshal_nil_when_one_target_decodes b (t : target Slot Dest) vv st :
  In t vv ->
  (forall cfg h,
      match snd (jsoniter_Unmarshal lib cfg b t h) with
      | Some e => errors_Is_EOF e = true
      | None => True
      end) ->
  fst (Unmarshal lib (inr b) vv st) = None
  /\ forall r, Unmarshal lib r [] st = (None, st).
Proof.
  intros Hin Hok. split; [| reflexivity].
  unfold Unmarshal. destruct vv as [|v vv]; [destruct Hin |].
  cbn [length Nat.eqb].
  pose proof (decodeEach_one_decodes b t Hok (v :: vv) st [] Hin) as Hlt.
  destruct (decodeEach lib b (v :: vv) st []) as [errs st'].
  cbn [fst length] in Hlt.
  destruct (Nat.eqb_spec (length errs) (S (length vv))); [lia | reflexivity].
Qed.

Lemma decodeEach_failures b :
  (forall cfg (t : target Slot Dest) h, exists e,
      snd (jsoniter_Unmarshal lib cfg b t h) = Some e
      /\ errors_Is_EOF e = false) ->
  forall vv st errs0,
  exists errs,
    fst (decodeEach lib b vv st errs0) = errs0 ++ errs
    /\ Forall2
         (fun t e =>
            exists h,
              snd (jsoniter_Unmarshal lib (fst (GetJsoniter (this st))) b t h)
              = Some e)
         vv errs.
Proof.
  intros Hfail. induction vv as [|v vv IH]; intros st errs0; cbn [decodeEach].
  - exists []. rewrite app_nil_r. split; [reflexivity | constructor].
  - pose proof (GetJsoniter_again (this st)) as Hagain.
    destruct (GetJsoniter (this st)) as [api c'] eqn:Hget. cbn [fst snd] in *.
    destruct (Hfail api v (heap st)) as (e & He & Hnot).
    destruct (jsoniter_Unmarshal lib api b v (heap st)) as [h err] eqn:Hdec.
    cbn [snd] in He. subst err. rewrite Hnot.
    destruct (IH {| this := c'; heap := h; trace := trace st |} (errs0 ++ [e]))
      as (errs & Herrs & Hall).
    exists (e :: errs). split.
    + rewrite Herrs, <- app_assoc. reflexivity.
    + constructor.
      * exists (heap st). rewrite Hdec. reflexivity.
      * cbn [this] in Hall. rewrite Hagain in Hall. exact Hall.
Qed.

Section Answered.
Variables (request : Request Any Slot) (st : State Any Slot Heap)
  (pre : list (Event Any)) (sent : HttpRequest Any) (resp : Response)
  (ctx : option Z).
Hypothesis Hprep : prepares lib (this st) request pre sent.
Hypothesis Hsend :
  httpClient (this st) (sendCount (trace st)) sent = inr resp.

(** X7. Once the transport answers, with whatever status, the call is
    over: [Do] has sent exactly this one request and has not slept, however
    many retries are allowed. A status outside [200,299] is not retried. *)
Theorem Do_does_not_retry_an_answer dest :
  trace (snd (Do lib ctx request dest st)) = trace st ++ pre ++ [EvSend sent]
  /\ sendCount (pre ++ [EvSend sent]) = 1%nat
  /\ sleepCount (pre ++ [EvSend sent]) = 0%nat
  /\ exists err, fst (Do lib ctx request dest st) = Returned err.
Proof.
  rewrite (Do_is_resolve lib request st pre sent resp ctx Hprep Hsend dest).
  cbn [fst snd]. rewrite resolve_trace.
  split; [reflexivity |]. split; [| split].
  - apply (round_one_send lib (this st) request pre sent Hprep).
  - unfold sleepCount.
    rewrite (round_no_sleep lib (this st) request pre sent Hprep).
    reflexivity.
  - eexists. reflexivity.
Qed.

(** X8. A status outside [200,299] always gives an error, whatever the body
    holds and whether or not it decodes: [Do] returns an ErrorResponse whose
    message is the status line and that carries the response. *)
Theorem Do_error_status_gives_ErrorResponse dest :
  ~ (200 <= StatusCode resp <= 299) ->
  exists parent,
    fst (Do lib ctx request dest st)
    = Returned
        (Some (errResponse
                 (NewErrorResponse (Status resp) (Some resp) parent))).
Proof.
  intros Hout.
  rewrite (Do_is_resolve lib request st pre sent resp ctx Hprep Hsend dest).
  cbn [fst]. unfold resolve.
  rewrite (checkForErrorResponse_failure resp Hout).
  destruct (Unmarshal lib (RespBody resp) _ (sentState pre sent st))
    as [[err|] st']; eexists; reflexivity.
Qed.

(** X9. The error path as the code runs it: when the status is outside
    [200,299] and the decoding of the body reports no error, the parent of
    the returned ErrorResponse is the join of the declared error structs
    that render a message which is not empty, in the order they were
    declared (nil when there is none), and the unwrap chain of the result
    reaches each of them. *)
Theorem Do_error_path_joins_rendering_structs dest :
  ~ (200 <= StatusCode resp <= 299) ->
  fst (Unmarshal lib (RespBody resp)
         [toErrorSlice (default [] (ErrorStructs request))]
         (sentState pre sent st)) = None ->
  Do lib ctx request dest st =
    (Returned
       (Some (errResponse
                (NewErrorResponse (Status resp) (Some resp)
                   (errors_Join
                      (List.map slotError
                         (List.filter
                            (nonEmpty lib
                               (heap (snd (Unmarshal lib (RespBody resp)
                                  [toErrorSlice
                                     (default [] (ErrorStructs request))]
                                  (sentState pre sent st)))))
                            (default [] (ErrorStructs request)))))))),
     snd (Unmarshal lib (RespBody resp)
            [toErrorSlice (default [] (ErrorStructs request))]
            (sentState pre sent st)))
  /\ forall (eqb : Slot -> Slot -> bool) (s : Slot),
       (forall x, eqb x x = true) ->
       In s (default [] (ErrorStructs request)) ->
       slot_Error lib
         (heap (snd (Unmarshal lib (RespBody resp)
                       [toErrorSlice (default [] (ErrorStructs request))]
                       (sentState pre sent st)))) s <> "" ->
       match fst (Do lib ctx request dest st) with
       | Returned (Some err) => reaches eqb s err = true
       | _ => False
       end.
Proof.
  intros Hout Hnil.
  assert (Hdo : Do lib ctx request dest st =
    (Returned
       (Some (errResponse
                (NewErrorResponse (Status resp) (Some resp)
                   (errors_Join
                      (List.map slotError
                         (List.filter
                            (nonEmpty lib
                               (heap (snd (Unmarshal lib (RespBody resp)
                                  [toErrorSlice
                                     (default [] (ErrorStructs request))]
                                  (sentState pre sent st)))))
                            (default [] (ErrorStructs request)))))))),
     snd (Unmarshal lib (RespBody resp)
            [toErrorSlice (default [] (ErrorStructs request))]
            (sentState pre sent st)))).
  { rewrite (Do_is_resolve lib request st pre sent resp ctx Hprep Hsend dest).
    unfold resolve. rewrite (checkForErrorResponse_failure resp Hout).
    destruct (Unmarshal lib (RespBody resp) _ (sentState pre sent st))
      as [err st'].
    cbn [fst snd] in *. subst err. reflexivity. }
  split; [exact Hdo |].
  intros eqb s Hrefl Hin Hmsg. rewrite Hdo. cbn [fst].
  set (h := heap (snd (Unmarshal lib (RespBody resp)
                         [toErrorSlice (default [] (ErrorStructs request))]
                         (sentState pre sent st)))) in *.
  assert (Hkept : In s (List.filter (nonEmpty lib h)
                          (default [] (ErrorStructs request)))).
  { apply List.filter_In. split; [exact Hin |].
    unfold nonEmpty. destruct (String.eqb_spec (slot_Error lib h s) "");
      [contradiction | reflexivity]. }
  destruct (List.filter (nonEmpty lib h) (default [] (ErrorStructs request)))
    as [|s0 kept] eqn:Hfilter; [destruct Hkept |].
  cbn [List.map errors_Join reaches NewErrorResponse Parent].
  apply existsb_exists. exists (slotError s).
  split; [| cbn; apply Hrefl].
  change (slotError s0 :: List.map slotError kept)
    with (List.map (slotError (Slot := Slot)) (s0 :: kept)).
  apply List.in_map. exact Hkept.
Qed.

(** X10. A status in [200,299] and a nil destination: [Do] returns nil and
    decodes nothing. The caller's memory is untouched and no codec is built
    or cached; the events of the call are those of the authentication (a
    preflight call, if the client uses one) followed by the one send. *)
Theorem Do_nil_destination_decodes_nothing :
  200 <= StatusCode resp <= 299 ->
  fst (Do lib ctx request None st) = Returned None
  /\ heap (snd (Do lib ctx request None st)) = heap st
  /\ jsoniterInstance (this (snd (Do lib ctx request None st)))
     = jsoniterInstance (this st)
  /\ trace (snd (Do lib ctx request None st))
     = trace st ++ pre ++ [EvSend sent].
Proof.
  intros H2xx.
  assert (Hdo : Do lib ctx request None st
                = (Returned None, sentState pre sent st)).
  { rewrite (Do_is_resolve lib request st pre sent resp ctx Hprep Hsend None).
    unfold resolve. rewrite (checkForErrorResponse_success resp H2xx).
    reflexivity. }
  rewrite Hdo. repeat split.
Qed.

(** What [Do] returns when the decoder fails, with an error that is not the
    end of the input, on the body [b] for every target. *)
Lemma Do_when_every_target_fails (d : Dest) (b : bytes) :
  200 <= StatusCode resp <= 299 ->
  RespBody resp = inr b ->
  (forall cfg (t : target Slot Dest) h, exists e,
      snd (jsoniter_Unmarshal lib cfg b t h) = Some e
      /\ errors_Is_EOF e = false) ->
  Forall2
    (fun t e =>
       exists h,
         snd (jsoniter_Unmarshal lib (fst (GetJsoniter (this st))) b t h)
         = Some e)
    (possibleStructs request d)
    (fst (decodeEach lib b (possibleStructs request d)
            (sentState pre sent st) []))
  /\ Do lib ctx request (Some d) st =
       (Returned
          (Some (errResponse
                   (NewErrorResponse "failed to unmarshal response"
                      (Some resp)
                      (Some (errorString
                               (strings_Join
                                  (List.map
                                     (Error_ lib
                                        (heap (snd (decodeEach lib b
                                           (possibleStructs request d)
                                           (sentState pre sent st) []))))
                                     (fst (decodeEach lib b
                                             (possibleStructs request d)
                                             (sentState pre sent st) [])))
                                  ", ")))))),
        snd (decodeEach lib b (possibleStructs request d)
               (sentState pre sent st) [])).
Proof.
  intros H2xx Hbody Hfail.
  destruct (decodeEach_failures b Hfail (possibleStructs request d)
              (sentState pre sent st) []) as (errs & Herrs & Hall).
  cbn [app] in Herrs. rewrite Herrs. split; [exact Hall |].
  rewrite (Do_is_resolve lib request st pre sent resp ctx Hprep Hsend (Some d)).
  unfold resolve.
  rewrite (checkForErrorResponse_success resp H2xx), Hbody.
  fold (possibleStructs request d).
  unfold Unmarshal.
  assert (Hlen : length errs = length (possibleStructs request d)).
  { symmetry. apply (Forall2_length _ _ _ Hall). }
  change (length (possibleStructs request d) =? 0)%nat with false. cbv iota.
  destruct (decodeEach lib b (possibleStructs request d)
              (sentState pre sent st) []) as [errs' st'].
  cbn [fst snd] in *. subst errs'.
  rewrite Hlen, Nat.eqb_refl. reflexivity.
Qed.

(** X11. A status in [200,299], a destination, and a body that no target
    can decode (the decoder fails on it for the destination and for every
    declared error struct, never with an end of input): [Do] returns the
    ErrorResponse [failed to unmarshal response]. Its parent is one error
    whose text is made of the messages of the errors the decoding loop
    kept, joined by [", "]; these are, in order, the decoder's error for
    the destination and its error for each declared error struct. *)
Theorem Do_fails_when_no_target_decodes (d : Dest) (b : bytes) :
  200 <= StatusCode resp <= 299 ->
  RespBody resp = inr b ->
  (forall cfg (t : target Slot Dest) h, exists e,
      snd (jsoniter_Unmarshal lib cfg b t h) = Some e
      /\ errors_Is_EOF e = false) ->
  Forall2
    (fun t e =>
       exists h,
         snd (jsoniter_Unmarshal lib (fst (GetJsoniter (this st))) b t h)
         = Some e)
    (possibleStructs request d)
    (fst (decodeEach lib b (possibleStructs request d)
            (sentState pre sent st) []))
  /\ Do lib ctx request (Some d) st =
       (Returned
          (Some (errResponse
                   (NewErrorResponse "failed to unmarshal response"
                      (Some resp)
                      (Some (errorString
                               (strings_Join
                                  (List.map
                                     (Error_ lib
                                        (heap (snd (decodeEach lib b
                                           (possibleStructs request d)
                                           (sentState pre sent st) []))))
                                     (fst (decodeEach lib b
                                             (possibleStructs request d)
                                             (sentState pre sent st) [])))
                                  ", ")))))),
        snd (decodeEach lib b (possibleStructs request d)
               (sentState pre sent st) [])).
Proof.
  intros H2xx Hbody Hfail.
  apply (Do_when_every_target_fails d b H2xx Hbody Hfail).
Qed.

(** C9, as the code runs. The status is in [200,299], the destination is
    not nil and the body is empty. json-iterator reports no [io.EOF] for an
    empty body: expecting a value, it returns an error of its own for every
    target, so the test [errors.Is(err, io.EOF)] of [Unmarshal] lets none
    pass. Every target has then failed, and [Do] returns the ErrorResponse
    [failed to unmarshal response], not nil. *)
Theorem Do_empty_success_body_is_an_unmarshal_error (d : Dest) :
  200 <= StatusCode resp <= 299 ->
  RespBody resp = inr [] ->
  (forall cfg (t : target Slot Dest) h, exists e,
      snd (jsoniter_Unmarshal lib cfg [] t h) = Some e
      /\ errors_Is_EOF e = false) ->
  fst (Do lib ctx request (Some d) st)
  = Returned
      (Some (errResponse
               (NewErrorResponse "failed to unmarshal response" (Some resp)
                  (Some (errorString
                           (strings_Join
                              (List.map
                                 (Error_ lib
                                    (heap (snd (decodeEach lib []
                                       (possibleStructs request d)
                                       (sentState pre sent st) []))))
                                 (fst (decodeEach lib []
                                         (possibleStructs request d)
                                         (sentState pre sent st) [])))
                              ", "))))))
  /\ fst (Do lib ctx request (Some d) st) <> Returned None
  /\ length (fst (decodeEach lib [] (possibleStructs request d)
                    (sentState pre sent st) []))
     = S (length (default [] (ErrorStructs request))).
Proof.
  intros H2xx Hbody Hfail.
  destruct (Do_when_every_target_fails d [] H2xx Hbody Hfail) as [Hall Hdo].
  rewrite Hdo. cbn [fst]. split; [reflexivity |]. split; [discriminate |].
  rewrite <- (Forall2_length _ _ _ Hall). unfold possibleStructs.
  cbn [length]. rewrite length_map. reflexivity.
Qed.

(** X12. A status in [200,299], a destination that decodes, and no declared
    error struct that renders a message after the decoding (in particular:
    no declared error struct at all): [Do] returns nil. *)
Theorem Do_succeeds_when_no_struct_renders (d : Dest) (b : bytes) :
  200 <= StatusCode resp <= 299 ->
  RespBody resp = inr b ->
  snd (jsoniter_Unmarshal lib (fst (GetJsoniter (this st))) b
         (toResponse d) (heap st)) = None ->
  Forall (fun e =>
            slot_Error lib
              (heap (snd (Unmarshal lib (inr b) (possibleStructs request d)
                            (sentState pre sent st)))) e = "")
    (default [] (ErrorStructs request)) ->
  Do lib ctx request (Some d) st =
    (Returned None,
     snd (Unmarshal lib (inr b) (possibleStructs request d)
            (sentState pre sent st))).
Proof.
  intros H2xx Hbody Hdest Hempty.
  rewrite (Do_is_resolve lib request st pre sent resp ctx Hprep Hsend (Some d)).
  unfold resolve.
  rewrite (checkForErrorResponse_success resp H2xx), Hbody.
  fold (possibleStructs request d).
  pose proof (Unmarshal_first_decodes lib b (toResponse d)
                (List.map toErrorPtr (default [] (ErrorStructs request)))
                (sentState pre sent st) Hdest) as Hnil.
  fold (possibleStructs request d) in Hnil.
  destruct (Unmarshal lib (inr b) (possibleStructs request d)
              (sentState pre sent st)) as [err st'].
  cbn [fst snd] in *. subst err.
  rewrite (find_all_empty lib _ _ Hempty). reflexivity.
Qed.
End Answered.
End AnswerFacts.

(** ** More about the builder *)

Section MoreBuilderFacts.
Context {Any Slot Dest Heap : Type}.
Variable lib : Lib Any Slot Dest Heap.

(** *** The codec *)

(** X15. [GetJsoniter] caches the codec it builds; asking again gives the
    same codec and changes nothing. [WithDisallowUnknownFields] drops the
    cache, so the next codec follows the new setting, also when a codec of
    the other setting had been cached before. *)
Theorem GetJsoniter_follows_the_strictness_option
    (c : client Any Slot) (b : bool) :
  jsoniterInstance (snd (GetJsoniter c)) = Some (fst (GetJsoniter c))
  /\ GetJsoniter (snd (GetJsoniter c))
     = (fst (GetJsoniter c), snd (GetJsoniter c))
  /\ fst (GetJsoniter (WithDisallowUnknownFields b (snd (GetJsoniter c))))
     = {| EscapeHTML := true; SortMapKeys := true;
          ValidateJsonRawMessage := true; DisallowUnknownFields := b |}
  /\ fst (GetJsoniter (WithDisallowUnknownFields b c))
     = {| EscapeHTML := true; SortMapKeys := true;
          ValidateJsonRawMessage := true; DisallowUnknownFields := b |}.
Proof.
  unfold GetJsoniter.
  destruct (jsoniterInstance c) as [api|] eqn:Hc; cbn; rewrite ?Hc;
    repeat split.
Qed.

(** *** The URL *)

Lemma Values_Add_lookup (k v k' : string) (q : gmap string (list string)) :
  default [] (Values_Add k v q !! k') =
    if decide (k = k') then default [] (q !! k) ++ [v]
    else default [] (q !! k').
Proof.
  unfold Values_Add. rewrite lookup_insert.
  destruct (decide (k = k')); [subst |]; reflexivity.
Qed.

Lemma Values_Add_all_lookup (k k' : string) (vv : list string) :
  forall q : gmap string (list string),
    default [] (fold_left (fun q v => Values_Add k v q) vv q !! k') =
      if decide (k = k') then default [] (q !! k) ++ vv
      else default [] (q !! k').
Proof.
  induction vv as [|v vv IH]; intros q; cbn [fold_left].
  - destruct (decide (k = k')); [subst; rewrite app_nil_r |]; reflexivity.
  - rewrite IH. destruct (decide (k = k')) as [->|Hne].
    + rewrite Values_Add_lookup. rewrite decide_True by reflexivity.
      rewrite <- app_assoc. reflexivity.
    + rewrite Values_Add_lookup. rewrite decide_False by assumption.
      reflexivity.
Qed.

Lemma merge_template_lookup (q m : gmap string (list string)) (k : string) :
  default []
    (map_fold (fun k vv q => fold_left (fun q v => Values_Add k v q) vv q)
       q m !! k)
  = default [] (q !! k) ++ default [] (m !! k).
Proof.
  revert k.
  apply (map_fold_weak_ind
           (fun r (m : gmap string (list string)) =>
              forall k, default [] (r !! k)
                        = default [] (q !! k) ++ default [] (m !! k))).
  - intros k. rewrite lookup_empty. cbn. rewrite app_nil_r. reflexivity.
  - intros i vv m' r Hfresh IH k. rewrite Values_Add_all_lookup.
    rewrite lookup_insert.
    destruct (decide (i = k)) as [->|Hne].
    + rewrite IH, Hfresh. cbn. rewrite app_nil_r. reflexivity.
    + apply IH.
Qed.

Lemma merge_tagged_lookup (q : gmap string (list string))
    (m : gmap string (Value Any)) (k : string) :
  default []
    (map_fold (fun k v q => Values_Add k (fmt_Sprint lib v) q) q m !! k)
  = default [] (q !! k)
    ++ match m !! k with
       | Some v => [fmt_Sprint lib v]
       | None => []
       end.
Proof.
  revert k.
  apply (map_fold_weak_ind
           (fun r (m : gmap string (Value Any)) =>
              forall k, default [] (r !! k)
                        = default [] (q !! k)
                          ++ match m !! k with
                             | Some v => [fmt_Sprint lib v]
                             | None => []
                             end)).
  - intros k. rewrite lookup_empty, app_nil_r. reflexivity.
  - intros i v m' r Hfresh IH k. rewrite Values_Add_lookup.
    rewrite lookup_insert.
    destruct (decide (i = k)) as [->|Hne].
    + rewrite IH, Hfresh, app_nil_r. reflexivity.
    + apply IH.
Qed.

Lemma getHttpRequest_url (request : Request Any Slot) (base : URL)
    (req : HttpRequest Any) :
  getHttpRequest lib request base = Returned (inr req) ->
  exists parsed p,
    url_Parse lib (PathTemplate request) = inr parsed
    /\ (getTaggedFields lib request "path" = ∅ ->
        p = path_Join lib (Path base) (Path parsed))
    /\ ReqURL req = URL_String lib (builtURL lib request base parsed p)
    /\ ReqMethod req
       = (if String.eqb (Method request) "" then "GET" else Method request)
    /\ Header req = []
    /\ getRequestBody lib request = inr (ReqBody req).
Proof.
  unfold getHttpRequest.
  destruct (url_Parse lib (PathTemplate request)) as [err|parsed];
    [discriminate |].
  fold (mergedQuery lib request base parsed).
  assert (Hrest : forall p,
    match getRequestBody lib request with
    | inl e => Returned (inl e)
    | inr body =>
        match http_NewRequest lib (Method request)
                (URL_String lib (builtURL lib request base parsed p)) body with
        | inl e =>
            Returned (inl (wrapError "failed to create new http request: " e))
        | inr r => Returned (inr r)
        end
    end = Returned (inr req) ->
    ReqURL req = URL_String lib (builtURL lib request base parsed p)
    /\ ReqMethod req
       = (if String.eqb (Method request) "" then "GET" else Method request)
    /\ Header req = []
    /\ getRequestBody lib request = inr (ReqBody req)).
  { intros p. destruct (getRequestBody lib request) as [e|body];
      [discriminate |].
    unfold http_NewRequest. cbv zeta.
    destruct (http_NewRequest_check lib _ _); [discriminate |].
    intros [= <-]. repeat split. }
  destruct (0 <? size (getTaggedFields lib request "path"))%nat eqn:Hsize.
  - destruct (template_Parse lib _); [discriminate |].
    destruct (template_Execute lib _ _) as [e|rendered]; [discriminate |].
    intros Hreq. exists parsed, rendered.
    split; [reflexivity |]. split; [| apply Hrest, Hreq].
    intros Hnone. rewrite Hnone in Hsize. discriminate Hsize.
  - intros Hreq. exists parsed, (path_Join lib (Path base) (Path parsed)).
    split; [reflexivity |]. split; [reflexivity | apply Hrest, Hreq].
Qed.

(** X16. A request with no path parameter never reaches the [log.Fatal] of
    the template step, the one place where the builder ends the process: the
    path is not run as a template at all. If [getHttpRequest] returns a
    request, its URL has the scheme and host of the base URL and the path
    [path.Join(base path, template path)] as it stands, its method is the
    request's (GET when that is empty), it has no header yet, and its body
    is what [getRequestBody] gave. *)
Theorem getHttpRequest_without_path_parameters
    (request : Request Any Slot) (base : URL) :
  getTaggedFields lib request "path" = ∅ ->
  (forall code, getHttpRequest lib request base <> Exited code)
  /\ (forall req,
        getHttpRequest lib request base = Returned (inr req) ->
        exists parsed,
          url_Parse lib (PathTemplate request) = inr parsed
          /\ ReqURL req
             = URL_String lib
                 (builtURL lib request base parsed
                    (path_Join lib (Path base) (Path parsed)))
          /\ ReqMethod req
             = (if String.eqb (Method request) "" then "GET"
                else Method request)
          /\ Header req = []
          /\ getRequestBody lib request = inr (ReqBody req)).
Proof.
  intros Hnone. split.
  - intros code. unfold getHttpRequest.
    destruct (url_Parse lib (PathTemplate request)); [discriminate |].
    rewrite Hnone. cbn [size].
    change (0 <? size (∅ : gmap string (Value Any)))%nat with false.
    destruct (getRequestBody lib request); [discriminate |].
    destruct (http_NewRequest lib _ _ _); discriminate.
  - intros req Hreq.
    destruct (getHttpRequest_url request base req Hreq)
      as (parsed & p & Hparse & Hp & Hurl & Hrest).
    exists parsed. rewrite (Hp Hnone) in Hurl. auto.
Qed.

(** X17. The query of the built URL is the encoding of these values: for
    every key, first the values of the base URL, then those of the path
    template, then the tagged query field of that name, printed. A key that
    the template and a field share keeps both values. *)
Theorem getHttpRequest_merges_the_queries
    (request : Request Any Slot) (base : URL) (req : HttpRequest Any) :
  getHttpRequest lib request base = Returned (inr req) ->
  exists parsed p,
    url_Parse lib (PathTemplate request) = inr parsed
    /\ ReqURL req =
         URL_String lib
           {| Scheme := Scheme base; Host := Host base; Path := p;
              RawQuery :=
                Values_Encode lib (mergedQuery lib request base parsed) |}
    /\ forall k,
         default [] (mergedQuery lib request base parsed !! k)
         = default [] (URL_Query lib (RawQuery base) !! k)
           ++ default [] (URL_Query lib (RawQuery parsed) !! k)
           ++ match getTaggedFields lib request "query" !! k with
              | Some v => [fmt_Sprint lib v]
              | None => []
              end.
Proof.
  intros Hreq.
  destruct (getHttpRequest_url request base req Hreq)
    as (parsed & p & Hparse & _ & Hurl & _).
  exists parsed, p. split; [exact Hparse |]. split; [exact Hurl |].
  intros k. unfold mergedQuery.
  rewrite merge_tagged_lookup, merge_template_lookup, <- app_assoc.
  reflexivity.
Qed.

(** *** The tagged fields *)

Lemma visitField_cases tag (m : gmap string (Value Any))
    (sf : StructField Any) :
  visitField lib tag m sf = m
  \/ exists tv,
       Tag_Lookup tag (Tag sf) = Some tv
       /\ FieldValue sf <> Nil
       /\ visitField lib tag m sf
          = <[hd "" (strings_Split tv comma) := deref (FieldValue sf)]> m.
Proof.
  unfold visitField, deref.
  destruct (Tag_Lookup tag (Tag sf)) as [tv|]; [| auto].
  destruct (FieldValue sf) as [|elem|a]; cbn; [auto | |].
  - destruct (slices_Contains _ _);
      [destruct (IsZero lib elem); [auto |];
       destruct (isZeroer_IsZero lib elem) as [[|]|]; [auto | |] |];
      right; exists tv; repeat split; discriminate.
  - destruct (slices_Contains _ _);
      [destruct (reflect_IsZero lib a); [auto |];
       destruct (isZeroer_IsZero lib (Val a)) as [[|]|]; [auto | |] |];
      right; exists tv; repeat split; discriminate.
Qed.

Lemma visitFields_origin tag key (v : Value Any)
    (fs : list (StructField Any)) :
  forall m : gmap string (Value Any),
    fold_left (visitField lib tag) fs m !! key = Some v ->
    m !! key = Some v
    \/ exists sf tv,
         In sf fs
         /\ Tag_Lookup tag (Tag sf) = Some tv
         /\ hd "" (strings_Split tv comma) = key
         /\ FieldValue sf <> Nil
         /\ v = deref (FieldValue sf).
Proof.
  induction fs as [|sf fs IH]; intros m Hm; cbn [fold_left] in Hm; [auto |].
  destruct (IH _ Hm) as [Hhere | (sf' & tv & Hin & Htag & Hkey & Hnn & Hv)].
  - destruct (visitField_cases tag m sf) as [Hsame | (tv & Htag & Hnn & Hins)].
    + rewrite Hsame in Hhere. auto.
    + rewrite Hins, lookup_insert in Hhere.
      destruct (decide (hd "" (strings_Split tv comma) = key)) as [Hk|Hk].
      * injection Hhere as <-. right. exists sf, tv.
        repeat split; auto. left. reflexivity.
      * auto.
  - right. exists sf', tv. repeat split; auto. right. exact Hin.
Qed.

(** X19. The parameter map holds nothing but tagged fields: every key of
    [getTaggedFields] is the name (the first part of the tag value) of a
    field of the struct that carries the tag and is no nil pointer, and the
    value under it is that field's value, followed through one pointer. A
    value that is no struct gives the empty map. *)
Theorem getTaggedFields_holds_only_tagged_fields
    (r : Request Any Slot) (tag key : string) (v : Value Any) :
  getTaggedFields lib r tag !! key = Some v ->
  exists fs sf tv,
    fields r = Some fs
    /\ In sf fs
    /\ Tag_Lookup tag (Tag sf) = Some tv
    /\ hd "" (strings_Split tv comma) = key
    /\ FieldValue sf <> Nil
    /\ v = deref (FieldValue sf).
Proof.
  unfold getTaggedFields. destruct (fields r) as [fs|].
  - intros Hv.
    destruct (visitFields_origin tag key v fs ∅ Hv)
      as [Hempty | (sf & tv & H)].
    + rewrite lookup_empty in Hempty. discriminate.
    + exists fs, sf, tv. split; [reflexivity | exact H].
  - rewrite lookup_empty. discriminate.
Qed.

Lemma visitField_agrees tag (m : gmap string (Value Any))
    (sf : StructField Any) :
  Tag_Lookup tag (Tag sf) = None
  \/ (exists a, FieldValue sf = Val a
                /\ isZeroer_IsZero lib (Val a) <> Some true) ->
  Legacy.visitField lib tag m sf = visitField lib tag m sf.
Proof.
  unfold Legacy.visitField, visitField.
  intros [Hnone | (a & Hval & Hself)].
  - rewrite Hnone. reflexivity.
  - destruct (Tag_Lookup tag (Tag sf)) as [tv|]; [| reflexivity].
    rewrite Hval. cbn.
    destruct (slices_Contains _ _); cbn; [| reflexivity].
    destruct (reflect_IsZero lib a); [reflexivity |].
    destruct (isZeroer_IsZero lib (Val a)) as [[|]|];
      [contradiction | reflexivity..].
Qed.

(** X20. The two copies of [getTaggedFields] (client/client.go and the
    current one) build the same map for every struct whose fields with this
    tag are plain values, not pointers, that do not report themselves empty
    through an [IsZero] method. *)
Theorem Legacy_getTaggedFields_agrees_on_plain_values
    (r : Request Any Slot) (tag : string) :
  Forall (fun sf =>
            Tag_Lookup tag (Tag sf) = None
            \/ (exists a, FieldValue sf = Val a
                          /\ isZeroer_IsZero lib (Val a) <> Some true))
    (default [] (fields r)) ->
  Legacy.getTaggedFields lib r tag = getTaggedFields lib r tag.
Proof.
  unfold Legacy.getTaggedFields, getTaggedFields.
  destruct (fields r) as [fs|]; [| reflexivity].
  change (default [] (Some fs)) with fs.
  generalize (∅ : gmap string (Value Any)).
  induction fs as [|sf fs IH]; intros m Hall; [reflexivity |].
  inversion Hall as [|? ? Hsf Hfs]; subst. cbn [fold_left].
  rewrite (visitField_agrees tag m sf Hsf). apply IH. exact Hfs.
Qed.
End MoreBuilderFacts.

(** ** The options and NewClient *)

Section OptionFacts.
Context {Any Slot Dest Heap : Type}.
Variable lib : Lib Any Slot Dest Heap.
Variable TokenSource : Type.
Variable oauth2_NewClient :
  option (@Options.Transport Any Slot) -> option TokenSource
  -> @Options.Transport Any Slot.
Variable http_DefaultClient : @Options.Transport Any Slot.
Variable CredentialsConfig : Type.
Variable Config_TokenSource : CredentialsConfig -> TokenSource.

Lemma leavesBaseURL_keeps (opt : Options.Option TokenSource)
    (c : Options.clientFull TokenSource) :
  Options.leavesBaseURL TokenSource oauth2_NewClient CredentialsConfig
    Config_TokenSource opt ->
  baseURL (Options.core _ (opt c)) = baseURL (Options.core _ c).
Proof.
  intros Hopt. destruct Hopt; try reflexivity.
  unfold Options.WithHttpClient.
  destruct (authType (Options.core TokenSource c) =? authTypeOAuth2);
    reflexivity.
Qed.

Lemma options_keep_baseURL (opts : list (Options.Option TokenSource)) :
  Forall (Options.leavesBaseURL TokenSource oauth2_NewClient CredentialsConfig
    Config_TokenSource) opts ->
  forall c : Options.clientFull TokenSource,
    baseURL (Options.core _ (fold_left (fun c opt => opt c) opts c))
    = baseURL (Options.core _ c).
Proof.
  induction 1 as [|opt opts Hopt _ IH]; intros c; [reflexivity |].
  cbn [fold_left]. rewrite IH. apply leavesBaseURL_keeps, Hopt.
Qed.

(** X1. A client made by [NewClient] from options of the package none of
    which is [WithBaseURL] has no base URL, and [Do] on it returns
    [client base URL not set] for every request: nothing is built, sent or
    retried, and the state is as before. *)
Theorem NewClient_without_WithBaseURL_cannot_Do
    (opts : list (Options.Option TokenSource))
    (ctx : option Z) (request : Request Any Slot) (dest : option Dest)
    (st : State Any Slot Heap) :
  Forall (Options.leavesBaseURL TokenSource oauth2_NewClient CredentialsConfig
    Config_TokenSource) opts ->
  this st = Options.core _ (Options.NewClient TokenSource http_DefaultClient opts) ->
  Do lib ctx request dest st =
    (Returned (Some (errorString "client base URL not set")), st).
Proof.
  intros Hopts Hthis. unfold Do. cbn [Do_rec]. rewrite Hthis.
  unfold Options.NewClient. rewrite (options_keep_baseURL opts Hopts).
  reflexivity.
Qed.

(** X22. [WithHttpClient] and [WithOAuth2TokenSource] can be given in either
    order: the resulting clients are equal, and their transport is the OAuth2
    wrapper around the given client with the given token source. *)
Theorem WithHttpClient_and_WithOAuth2TokenSource_commute
    (h : @Options.Transport Any Slot) (source : option TokenSource)
    (c : Options.clientFull TokenSource) :
  Options.WithHttpClient TokenSource oauth2_NewClient h
    (Options.WithOAuth2TokenSource TokenSource oauth2_NewClient source c)
  = Options.WithOAuth2TokenSource TokenSource oauth2_NewClient source
      (Options.WithHttpClient TokenSource oauth2_NewClient h c)
  /\ httpClient
       (Options.core _
          (Options.WithHttpClient TokenSource oauth2_NewClient h
             (Options.WithOAuth2TokenSource TokenSource oauth2_NewClient
                source c)))
     = oauth2_NewClient (Some h) source
  /\ authType
       (Options.core _
          (Options.WithHttpClient TokenSource oauth2_NewClient h
             (Options.WithOAuth2TokenSource TokenSource oauth2_NewClient
                source c)))
     = authTypeOAuth2.
Proof.
  unfold Options.WithHttpClient, Options.WithOAuth2TokenSource.
  cbn [Options.core Options.tokenSource Options.baseClient authType
       Options.set_httpClient Options.set_authType].
  change (authTypeOAuth2 =? authTypeOAuth2) with true. cbn iota.
  destruct (authType (Options.core TokenSource c) =? authTypeOAuth2);
    repeat split.
Qed.
End OptionFacts.

(** ** The further properties at concrete inputs *)

Lemma NewClient_without_WithBaseURL_cannot_Do_witness :
  Do sampleLib None (sampleRequest None None) None
    {| this := Options.core unit
                 (Options.NewClient unit (failThenAnswer 0 (okResponse ""))
                    [Options.WithBasicAuth unit "user" "secret";
                     Options.WithMaxRetries unit 3]);
       heap := [""]; trace := [] |}
  = (Returned (Some (errorString "client base URL not set")),
     {| this := Options.core unit
                  (Options.NewClient unit (failThenAnswer 0 (okResponse ""))
                     [Options.WithBasicAuth unit "user" "secret";
                      Options.WithMaxRetries unit 3]);
        heap := [""]; trace := [] |}).
Proof.
  apply (NewClient_without_WithBaseURL_cannot_Do sampleLib unit sample_oauth2
           (failThenAnswer 0 (okResponse "")) unit (fun config => config)
           [Options.WithBasicAuth unit "user" "secret";
            Options.WithMaxRetries unit 3]).
  - repeat constructor.
  - reflexivity.
Defined.

Lemma Do_returns_build_errors_at_once_witness :
  fst (Do sampleLib None (requestWithBody (bodyOther (GoTime false false)))
         None
         (sampleState
            (WithMaxRetries 3
               (sampleClient (failThenAnswer 0 (okResponse "")))) []))
  = Returned
      (Some (wrapError "failed to encode request body: "
               (errorString "unsupported value")))
  /\ trace (snd (Do sampleLib None
                   (requestWithBody (bodyOther (GoTime false false))) None
                   (sampleState
                      (WithMaxRetries 3
                         (sampleClient (failThenAnswer 0 (okResponse ""))))
                      [])))
     = [].
Proof.
  destruct (Do_returns_build_errors_at_once sampleLib None
              (requestWithBody (bodyOther (GoTime false false))) None
              (sampleState
                 (WithMaxRetries 3
                    (sampleClient (failThenAnswer 0 (okResponse "")))) [])
              sampleBase
              (wrapError "failed to encode request body: "
                 (errorString "unsupported value")))
    as (Hresult & Htrace & _).
  - reflexivity.
  - vm_compute. reflexivity.
  - split; [exact Hresult | exact Htrace].
Defined.

Lemma Do_preflight_failure_aborts_witness :
  Do sampleLib None (sampleRequest None None) None
    (sampleState
       (samplePreflightClient refusing (failThenAnswer 0 (okResponse ""))) [])
  = (Returned (Some (errorString "no signing key")),
     set_trace [EvPreflight sampleBuilt]
       (sampleState
          (samplePreflightClient refusing (failThenAnswer 0 (okResponse "")))
          [])).
Proof.
  apply (Do_preflight_failure_aborts sampleLib None (sampleRequest None None)
           None
           (sampleState
              (samplePreflightClient refusing
                 (failThenAnswer 0 (okResponse ""))) [])
           sampleBase sampleBuilt refusing (errorString "no signing key"));
    reflexivity.
Defined.

Lemma Do_sends_what_preflight_returns_witness :
  trace (snd (Do sampleLib None (sampleRequest None None) None
                (sampleState
                   (samplePreflightClient signing
                      (failThenAnswer 0 (okResponse ""))) [])))
  = [EvPreflight sampleBuilt;
     EvSend {| ReqMethod := "GET";
               ReqURL := "https://api.example.com/v1/things";
               Header := [("X-Signature", "abc");
                          ("Content-Type", "application/json; charset=utf-8");
                          ("Accept", "application/json");
                          ("User-Agent", "omniboost/0.0.1")];
               ReqBody := None |}].
Proof.
  apply (Do_sends_what_preflight_returns sampleLib None
           (sampleRequest None None) None
           (sampleState
              (samplePreflightClient signing
                 (failThenAnswer 0 (okResponse ""))) [])
           sampleBase sampleBuilt
           (Header_Add "X-Signature" "abc" sampleBuilt) signing
           (okResponse ""));
    reflexivity.
Defined.

(** Status 500 and three retries allowed: one send, no sleep. *)
Lemma Do_does_not_retry_an_answer_witness :
  trace (snd (Do sampleLib None (sampleRequest None None) None
                (sampleState
                   (WithMaxRetries 3
                      (sampleClient (failThenAnswer 0 (failResponse ""))))
                   [])))
  = [EvSend sampleSent].
Proof.
  apply (Do_does_not_retry_an_answer sampleLib (sampleRequest None None)
           (sampleState
              (WithMaxRetries 3
                 (sampleClient (failThenAnswer 0 (failResponse "")))) [])
           [] sampleSent (failResponse "") None
           (sample_prepares _ 3 None) eq_refl None).
Defined.

Lemma Do_error_status_gives_ErrorResponse_witness :
  exists parent,
    fst (Do sampleLib None (sampleRequest (Some [0%nat]) None) (Some tt)
           (sampleState
              (sampleClient (failThenAnswer 0 (failResponse quotaBody)))
              [""]))
    = Returned
        (Some (errResponse
                 (NewErrorResponse "500 Internal Server Error"
                    (Some (failResponse quotaBody)) parent))).
Proof.
  apply (Do_error_status_gives_ErrorResponse sampleLib
           (sampleRequest (Some [0%nat]) None)
           (sampleState
              (sampleClient (failThenAnswer 0 (failResponse quotaBody))) [""])
           [] sampleSent (failResponse quotaBody) None
           (sample_prepares_0 _ _) eq_refl (Some tt)).
  cbn. lia.
Defined.

(** Status 500 and an error struct that renders [boom] as declared. *)
Lemma Do_error_path_joins_rendering_structs_witness :
  fst (Do sampleLib None (sampleRequest (Some [0%nat]) None) (Some tt)
         (sampleState
            (sampleClient (failThenAnswer 0 (failResponse quotaBody)))
            ["boom"]))
  = Returned
      (Some (errResponse
               (NewErrorResponse "500 Internal Server Error"
                  (Some (failResponse quotaBody))
                  (Some (joinError [slotError 0%nat]))))).
Proof.
  destruct (Do_error_path_joins_rendering_structs sampleLib
              (sampleRequest (Some [0%nat]) None)
              (sampleState
                 (sampleClient (failThenAnswer 0 (failResponse quotaBody)))
                 ["boom"])
              [] sampleSent (failResponse quotaBody) None
              (sample_prepares_0 _ _) eq_refl (Some tt)) as [Hdo _].
  - cbn. lia.
  - vm_compute. reflexivity.
  - rewrite Hdo. vm_compute. reflexivity.
Defined.

Lemma Do_nil_destination_decodes_nothing_witness :
  fst (Do sampleLib None (sampleRequest (Some [0%nat]) None) None
         (sampleState
            (samplePreflightClient signing
               (failThenAnswer 0 (okResponse quotaBody))) [""]))
  = Returned None
  /\ heap (snd (Do sampleLib None (sampleRequest (Some [0%nat]) None) None
                  (sampleState
                     (samplePreflightClient signing
                        (failThenAnswer 0 (okResponse quotaBody))) [""])))
     = [""]
  /\ jsoniterInstance
       (this (snd (Do sampleLib None (sampleRequest (Some [0%nat]) None) None
                     (sampleState
                        (samplePreflightClient signing
                           (failThenAnswer 0 (okResponse quotaBody)))
                        [""]))))
     = None
  /\ trace (snd (Do sampleLib None (sampleRequest (Some [0%nat]) None) None
                   (sampleState
                      (samplePreflightClient signing
                         (failThenAnswer 0 (okResponse quotaBody))) [""])))
     = [EvPreflight sampleBuilt;
        EvSend (setOtherHeaders
                  (samplePreflightClient signing
                     (failThenAnswer 0 (okResponse quotaBody)))
                  (Header_Add "X-Signature" "abc" sampleBuilt))].
Proof.
  apply (Do_nil_destination_decodes_nothing sampleLib
           (sampleRequest (Some [0%nat]) None)
           (sampleState
              (samplePreflightClient signing
                 (failThenAnswer 0 (okResponse quotaBody))) [""])
           [EvPreflight sampleBuilt]
           (setOtherHeaders
              (samplePreflightClient signing
                 (failThenAnswer 0 (okResponse quotaBody)))
              (Header_Add "X-Signature" "abc" sampleBuilt))
           (okResponse quotaBody) None).
  - exists sampleBase, sampleBuilt, (Header_Add "X-Signature" "abc" sampleBuilt).
    repeat split.
  - reflexivity.
  - cbn. lia.
Defined.

Lemma sample_html_never_decodes (cfg : Config) (t : target nat unit)
    (h : list string) :
  exists e,
    snd (jsoniter_Unmarshal sampleLib cfg
           (String.list_byte_of_string "<html>") t h) = Some e
    /\ errors_Is_EOF e = false.
Proof.
  exists (errorString "ReadObject: expect { or n"). split; reflexivity.
Defined.

Lemma Do_fails_when_no_target_decodes_witness :
  fst (Do sampleLib None (sampleRequest (Some [0%nat]) None) (Some tt)
         (sampleState
            (sampleClient (failThenAnswer 0 (okResponse "<html>"))) [""]))
  = Returned
      (Some (errResponse
               (NewErrorResponse "failed to unmarshal response"
                  (Some (okResponse "<html>"))
                  (Some (errorString
                           "ReadObject: expect { or n, ReadObject: expect { or n"))))).
Proof.
  destruct (Do_fails_when_no_target_decodes sampleLib
              (sampleRequest (Some [0%nat]) None)
              (sampleState
                 (sampleClient (failThenAnswer 0 (okResponse "<html>"))) [""])
              [] sampleSent (okResponse "<html>") None
              (sample_prepares_0 _ _) eq_refl tt
              (String.list_byte_of_string "<html>")) as [_ Hdo].
  - cbn. lia.
  - reflexivity.
  - apply sample_html_never_decodes.
  - rewrite Hdo. vm_compute. reflexivity.
Defined.

Lemma sample_empty_never_decodes (cfg : Config) (t : target nat unit)
    (h : list string) :
  exists e,
    snd (jsoniter_Unmarshal sampleLib cfg [] t h) = Some e
    /\ errors_Is_EOF e = false.
Proof.
  exists (errorString "ReadObject: expect { or n"). split; reflexivity.
Defined.

(** Status 200, an empty body, a destination and one declared error
    struct. *)
Lemma Do_empty_success_body_is_an_unmarshal_error_witness :
  fst (Do sampleLib None (sampleRequest (Some [0%nat]) None) (Some tt)
         (sampleState
            (sampleClient (failThenAnswer 0 (okResponse ""))) [""]))
  = Returned
      (Some (errResponse
               (NewErrorResponse "failed to unmarshal response"
                  (Some (okResponse ""))
                  (Some (errorString
                           "ReadObject: expect { or n, ReadObject: expect { or n"))))).
Proof.
  destruct (Do_empty_success_body_is_an_unmarshal_error sampleLib
              (sampleRequest (Some [0%nat]) None)
              (sampleState
                 (sampleClient (failThenAnswer 0 (okResponse ""))) [""])
              [] sampleSent (okResponse "") None
              (sample_prepares_0 _ _) eq_refl tt) as [Hdo _].
  - cbn. lia.
  - reflexivity.
  - apply sample_empty_never_decodes.
  - rewrite Hdo. vm_compute. reflexivity.
Defined.

Lemma Do_succeeds_when_no_struct_renders_witness :
  fst (Do sampleLib None (sampleRequest (Some [0%nat]) None) (Some tt)
         (sampleState
            (sampleClient (failThenAnswer 0 (okResponse "{}"))) [""]))
  = Returned None.
Proof.
  rewrite (Do_succeeds_when_no_struct_renders sampleLib
             (sampleRequest (Some [0%nat]) None)
             (sampleState
                (sampleClient (failThenAnswer 0 (okResponse "{}"))) [""])
             [] sampleSent (okResponse "{}") None
             (sample_prepares_0 _ _) eq_refl tt
             (String.list_byte_of_string "{}")).
  - reflexivity.
  - cbn. lia.
  - reflexivity.
  - reflexivity.
  - repeat constructor.
Defined.

Lemma Unmarshal_nil_when_one_target_decodes_witness :
  fst (Unmarshal sampleLib (inr (String.list_byte_of_string "{}"))
         [toErrorSlice [0%nat]; toResponse tt]
         (sampleState (sampleClient (failThenAnswer 0 (okResponse "{}"))) [""]))
  = None.
Proof.
  apply (Unmarshal_nil_when_one_target_decodes sampleLib
           (String.list_byte_of_string "{}") (toResponse tt)
           [toErrorSlice [0%nat]; toResponse tt]
           (sampleState
              (sampleClient (failThenAnswer 0 (okResponse "{}"))) [""])).
  - right. left. reflexivity.
  - intros cfg h. exact I.
Defined.

Lemma getHttpRequest_without_path_parameters_witness :
  getHttpRequest sampleLib noMethodRequest sampleBase <> Exited 1
  /\ exists parsed,
       url_Parse sampleLib (PathTemplate noMethodRequest) = inr parsed
       /\ ReqURL sampleBuilt
          = URL_String sampleLib
              (builtURL sampleLib noMethodRequest sampleBase parsed
                 (path_Join sampleLib (Path sampleBase) (Path parsed)))
       /\ ReqMethod sampleBuilt = "GET"
       /\ Header sampleBuilt = []
       /\ getRequestBody sampleLib noMethodRequest = inr (ReqBody sampleBuilt).
Proof.
  destruct (getHttpRequest_without_path_parameters sampleLib noMethodRequest
              sampleBase) as [Hexit Hbuilt].
  - reflexivity.
  - split; [apply Hexit |].
    apply (Hbuilt sampleBuilt). vm_compute. reflexivity.
Defined.

Lemma getHttpRequest_merges_the_queries_witness :
  exists parsed p,
    url_Parse sampleLib (PathTemplate queryRequest) = inr parsed
    /\ "https://api.example.com/v1/things?page=1&page=2&sort=asc&token=abc"
       = URL_String sampleLib
           {| Scheme := Scheme queryBase; Host := Host queryBase; Path := p;
              RawQuery :=
                Values_Encode sampleLib
                  (mergedQuery sampleLib queryRequest queryBase parsed) |}
    /\ default [] (mergedQuery sampleLib queryRequest queryBase parsed
                     !! "page") = ["1"; "2"]
    /\ default [] (mergedQuery sampleLib queryRequest queryBase parsed
                     !! "sort") = ["asc"]
    /\ default [] (mergedQuery sampleLib queryRequest queryBase parsed
                     !! "token") = ["abc"].
Proof.
  destruct (getHttpRequest_merges_the_queries sampleLib queryRequest queryBase
              {| ReqMethod := "GET";
                 ReqURL :=
                   "https://api.example.com/v1/things?page=1&page=2&sort=asc&token=abc";
                 Header := []; ReqBody := None |})
    as (parsed & p & Hparse & Hurl & Hvalues).
  - vm_compute. reflexivity.
  - exists parsed, p. split; [exact Hparse |]. split; [exact Hurl |].
    rewrite !Hvalues.
    assert (Hparsed : parsed = {| Scheme := ""; Host := ""; Path := "/things";
                                  RawQuery := "page=1&sort=asc" |}).
    { vm_compute in Hparse. injection Hparse as <-. reflexivity. }
    rewrite Hparsed. repeat split; vm_compute; reflexivity.
Defined.

Lemma getTaggedFields_field_witness :
  getTaggedFields sampleLib (requestWithField "/things" nilPointerField)
    "query" = ∅
  /\ getTaggedFields sampleLib (requestWithField "/things" selfZeroField)
       "query" = ∅
  /\ getTaggedFields sampleLib (requestWithField "/things" zeroIntField)
       "query" !! "page" = Some (Val (GoInt 0)).
Proof.
  split; [| split].
  - destruct (getTaggedFields_field sampleLib
                (requestWithField "/things" nilPointerField) "query" [] []
                nilPointerField "q" eq_refl eq_refl) as (Hnil & _ & _).
    apply Hnil. reflexivity.
  - destruct (getTaggedFields_field sampleLib
                (requestWithField "/things" selfZeroField) "query" [] []
                selfZeroField "since,omitempty" eq_refl eq_refl)
      as (_ & Homit & _).
    apply Homit; [reflexivity | right; reflexivity].
  - destruct (getTaggedFields_field sampleLib
                (requestWithField "/things" zeroIntField) "query" [] []
                zeroIntField "page" eq_refl eq_refl) as (_ & _ & Hplain).
    destruct Hplain as [_ Hvalue]; [reflexivity | discriminate |].
    apply Hvalue. constructor.
Defined.

Lemma getTaggedFields_holds_only_tagged_fields_witness :
  exists fs sf tv,
    fields (requestWithField "/things" zeroIntField) = Some fs
    /\ In sf fs
    /\ Tag_Lookup "query" (Tag sf) = Some tv
    /\ hd "" (strings_Split tv comma) = "page"
    /\ FieldValue sf <> Nil
    /\ Val (GoInt 0) = deref (FieldValue sf).
Proof.
  apply (getTaggedFields_holds_only_tagged_fields sampleLib
           (requestWithField "/things" zeroIntField) "query" "page"
           (Val (GoInt 0))).
  vm_compute. reflexivity.
Defined.

Lemma Legacy_getTaggedFields_agrees_on_plain_values_witness :
  Legacy.getTaggedFields sampleLib (requestWithField "/things" zeroIntField)
    "query"
  = getTaggedFields sampleLib (requestWithField "/things" zeroIntField)
      "query".
Proof.
  apply (Legacy_getTaggedFields_agrees_on_plain_values sampleLib
           (requestWithField "/things" zeroIntField) "query").
  constructor; [| constructor]. right. exists (GoInt 0).
  split; [reflexivity | discriminate].
Defined.

(** The default retry bound, 0: the first failure is final. *)
Lemma Do_gives_up_witness :
  Do sampleLib None (sampleRequest None None) None
    (sampleState (sampleClient (failThenAnswer 1 (okResponse ""))) [])
  = (Returned (Some (wrapError "failed to do http request: " refused)),
     set_trace [EvSend sampleSent]
       (sampleState (sampleClient (failThenAnswer 1 (okResponse ""))) [])).
Proof.
  apply (Do_gives_up sampleLib
           (sampleClient (failThenAnswer 1 (okResponse "")))
           (sampleRequest None None) [] sampleSent (sample_prepares_0 _ _)
           None None
           (sampleState (sampleClient (failThenAnswer 1 (okResponse ""))) [])
           refused eq_refl eq_refl).
  cbn. lia.
Defined.
